(** * goadmin/myapp: the SQLite data-access layer, the bootstrap reconciler
      and the delete / change-password guards

    Shallow embedding of [src/main/g8/src/myapp/dao_sqlite.go] and of the
    DAO-facing parts of [src/main/g8/src/myapp/bootstrap.go].

    - Go strings are [string] (a sequence of bytes).
    - A [godal.IGenericBo] attribute bag, a fetched row and the translation
      tables are finite maps ([gmap string string]).
    - [(T, error)] results are pairs whose error component is an [option]:
      [None] is Go's [nil].
    - [panic] is the [Panic] outcome.
    - The handlers and [initDaos] talk to [groupDao] / [userDao] through
      the interfaces only, so they are written as programs over DAO calls
      ([Prog]); an interpreter runs a program against an implementation of
      the calls and records the calls that were made. *)

From Stdlib Require Import Ascii String.
From stdpp Require Import base option list strings gmap fin_maps.

Set Warnings "-clear-no-such-hyp".
Local Open Scope string_scope.

(** ** Go's [strings] package, on byte strings

    [strings.ToLower] and [strings.TrimSpace] as they act on strings whose
    bytes are all below 0x80 (both functions take their ASCII fast path
    there).  Bytes from 0x80 up are left alone by this model. *)
Module Strings.

Definition isUpper (c : ascii) : bool :=
  (65 <=? nat_of_ascii c)%nat && (nat_of_ascii c <=? 90)%nat.

(** [c += 'a' - 'A'] for ['A' <= c <= 'Z']. *)
Definition lowerByte (c : ascii) : ascii :=
  if isUpper c then ascii_of_nat (nat_of_ascii c + 32) else c.

Fixpoint ToLower (s : string) : string :=
  match s with
  | EmptyString => EmptyString
  | String c r => String (lowerByte c) (ToLower r)
  end.

(** [asciiSpace]: ['\t'], ['\n'], ['\v'], ['\f'], ['\r'], [' ']. *)
Definition isSpace (c : ascii) : bool :=
  let n := nat_of_ascii c in
  ((9 <=? n)%nat && (n <=? 13)%nat) || (n =? 32)%nat.

Fixpoint trimLeft (s : string) : string :=
  match s with
  | EmptyString => EmptyString
  | String c r => if isSpace c then trimLeft r else s
  end.

Fixpoint trimRight (s : string) : string :=
  match s with
  | EmptyString => EmptyString
  | String c r =>
      match trimRight r with
      | EmptyString => if isSpace c then EmptyString else String c EmptyString
      | r' => String c r'
      end
  end.

Definition TrimSpace (s : string) : string := trimRight (trimLeft s).


Definition firstByte (s : string) : option ascii :=
  match s with EmptyString => None | String c _ => Some c end.

Fixpoint lastByte (s : string) : option ascii :=
  match s with
  | EmptyString => None
  | String c EmptyString => Some c
  | String _ r => lastByte r
  end.

Definition startsWithSpace (s : string) : bool :=
  match firstByte s with Some c => isSpace c | None => false end.

Definition endsWithSpace (s : string) : bool :=
  match lastByte s with Some c => isSpace c | None => false end.


End Strings.

(** ** Results *)

(** A Go [error] value, identified with its [Error()] text. *)
Abbreviation error := string (only parsing).

Definition errors_New (msg : string) : error := msg.

(** What a call does: return normally, or [panic]. *)
Inductive outcome (A : Type) : Type :=
| Ret (a : A)
| Panic (msg : string).
Arguments Ret {A} a.
Arguments Panic {A} msg.

Definition obind {A B} (m : outcome A) (f : A -> outcome B) : outcome B :=
  match m with
  | Ret a => f a
  | Panic msg => Panic msg
  end.

(** ** Business objects *)

Record Group := mkGroup { Id : string; Name : string }.

Record User := mkUser {
  Username : string;
  Password : string;
  UName : string;      (* Go field [Name] of [User] *)
  GroupId : string }.

Global Instance Group_eq_dec : EqDecision Group.
Proof. solve_decision. Defined.

Global Instance User_eq_dec : EqDecision User.
Proof. solve_decision. Defined.

(** ** Declarations of other files of the package

    The well-known ids, the attribute-bag field names, the table names
    used by [initDaos] and the flash-message prefix are declared outside
    dao_sqlite.go and bootstrap.go; they are parameters here.  So are the
    collaborators the spec leaves out of scope: the password transform,
    the message catalogue and the router's URL reversal. *)
Class Constants := {
  SystemGroupId : string;
  AdminUserUsernname : string;
  AdminUserName : string;
  fieldGroupId : string;
  fieldGroupName : string;
  fieldUserUsername : string;
  fieldUserPassword : string;
  fieldUserName : string;
  fieldUserGroupId : string;
  sqliteTableGroup : string;
  sqliteTableUser : string;
  encryptPassword : string -> string -> string;
  flashPrefixWarning : string;
  i18nText : string -> list string -> string;
  Reverse : string -> string }.

(** Identifier normalisation, as [Create] applies it. *)
Definition normalize (s : string) : string :=
  Strings.ToLower (Strings.TrimSpace s).

(** ** Translation tables of dao_sqlite.go *)

Definition namespace : string := "myapp".

Definition tableUser : string := namespace +:+ "_user".
Definition colUserUsername : string := "uname".
Definition colUserPassword : string := "upwd".
Definition colUserName : string := "display_name".
Definition colUserGroupId : string := "gid".

Definition tableGroup : string := namespace +:+ "_group".
Definition colGroupId : string := "gid".
Definition colGroupName : string := "gname".

Section Tables.
Context `{K : Constants}.

Definition colsUser : list string :=
  [colUserUsername; colUserPassword; colUserName; colUserGroupId].

Definition mapFieldToColNameUser : gmap string string :=
  {[ fieldUserUsername := colUserUsername;
     fieldUserPassword := colUserPassword;
     fieldUserName := colUserName;
     fieldUserGroupId := colUserGroupId ]}.

Definition mapColNameToFieldUser : gmap string string :=
  {[ colUserUsername := fieldUserUsername;
     colUserPassword := fieldUserPassword;
     colUserName := fieldUserName;
     colUserGroupId := fieldUserGroupId ]}.

Definition colsGroup : list string := [colGroupId; colGroupName].

Definition mapFieldToColNameGroup : gmap string string :=
  {[ fieldGroupId := colGroupId; fieldGroupName := colGroupName ]}.

Definition mapColNameToFieldGroup : gmap string string :=
  {[ colGroupId := fieldGroupId; colGroupName := fieldGroupName ]}.

(** A Go map literal with two equal constant keys does not compile, so
    in any build of the package the field names of one entity are
    pairwise different. *)
Definition group_fields_distinct : Prop :=
  NoDup [fieldGroupId; fieldGroupName].

Definition user_fields_distinct : Prop :=
  NoDup [fieldUserUsername; fieldUserPassword; fieldUserName; fieldUserGroupId].

(** The three structures of one entity agree with each other. *)
Definition consistent (f2c c2f : gmap string string) (cols : list string) : Prop :=
  (∀ f c, f2c !! f = Some c ↔ c2f !! c = Some f) ∧
  NoDup cols ∧
  (∀ c, c ∈ cols ↔ is_Some (c2f !! c)) ∧
  (∀ c, c ∈ cols ↔ ∃ f, f2c !! f = Some c).

End Tables.


(** ** Attribute bags (godal.IGenericBo) *)

Global Instance outcome_ret : MRet outcome := @Ret.
Global Instance outcome_bind : MBind outcome := λ A B f m, obind m f.

(** The bag of a business object: field name to value.  Every value this
    package stores is a string. *)
Abbreviation GenericBo := (gmap string string).

Definition NewGenericBo : GenericBo := ∅.

Definition GboSetAttr (gbo : GenericBo) (path value : string) : GenericBo :=
  <[path := value]> gbo.

(** [GboGetAttrUnsafe(path, reddo.TypeString)]: the value, or [nil]
    ([None]) when the bag has no such attribute. *)
Definition GboGetAttrUnsafe (gbo : GenericBo) (path : string) : option string :=
  gbo !! path.

(** The type assertion [v.(string)]; it panics on a nil interface value. *)
Definition assertString (v : option string) : outcome string :=
  match v with
  | Some s => Ret s
  | None => Panic "interface conversion: interface {} is nil, not string"
  end.

(** ** The generic DAO engine, as the typed DAOs see it

    [*sql.GenericDaoSql] is embedded in each DAO struct; the DAO calls its
    [Gdao...] methods.  [St] is the state of the storage behind the
    connection.  A count and an error come back from every call. *)
Record GenericDaoSql (St : Type) := {
  GdaoCreate : string → option GenericBo → St → (nat * option error) * St;
  GdaoFetchOne : string → gmap string string → St → (option GenericBo * option error) * St;
  GdaoUpdate : string → option GenericBo → St → (nat * option error) * St;
  GdaoDelete : string → gmap string string → St → (nat * option error) * St }.
Arguments GdaoCreate {St} _ _ _ _.
Arguments GdaoFetchOne {St} _ _ _ _.
Arguments GdaoUpdate {St} _ _ _ _.
Arguments GdaoDelete {St} _ _ _ _.

(** ** GroupDaoSqlite (dao_sqlite.go) *)
Module GroupDaoSqlite.
Section Dao.
Context `{K : Constants} {St : Type}.

Record t := {
  engine : GenericDaoSql St;
  tableName : string }.

Definition toBo (gbo : option GenericBo) : outcome (option Group) :=
  match gbo with
  | None => Ret None
  | Some gbo =>
      id ← assertString (GboGetAttrUnsafe gbo fieldGroupId);
      name ← assertString (GboGetAttrUnsafe gbo fieldGroupName);
      Ret (Some {| Id := id; Name := name |})
  end.

Definition toGbo (bo : option Group) : option GenericBo :=
  match bo with
  | None => None
  | Some bo =>
      let gbo := NewGenericBo in
      let gbo := GboSetAttr gbo fieldGroupId (Id bo) in
      let gbo := GboSetAttr gbo fieldGroupName (Name bo) in
      Some gbo
  end.

Definition Create (dao : t) (id name : string) (s : St) : (bool * option error) * St :=
  let bo := {| Id := Strings.ToLower (Strings.TrimSpace id);
               Name := Strings.TrimSpace name |} in
  let '((numRows, err), s') := GdaoCreate (engine dao) (tableName dao) (toGbo (Some bo)) s in
  (((0 <? numRows)%nat, err), s').

Definition Get (dao : t) (id : string) (s : St)
  : outcome ((option Group * option error) * St) :=
  let '((gbo, err), s') :=
    GdaoFetchOne (engine dao) (tableName dao) {[ colGroupId := id ]} s in
  match err with
  | Some e => Ret ((None, Some e), s')
  | None => bo ← toBo gbo; Ret ((bo, None), s')
  end.

(** Modelled from the spec: [GroupDaoSqlite.Update], which dao_sqlite.go
    does not contain ("converts struct to bag, calls engine Update"). *)
Definition Update (dao : t) (bo : Group) (s : St) : (bool * option error) * St :=
  let '((numRows, err), s') := GdaoUpdate (engine dao) (tableName dao) (toGbo (Some bo)) s in
  (((0 <? numRows)%nat, err), s').

(** Modelled from the spec: [GroupDaoSqlite.Delete], which dao_sqlite.go
    does not contain ("calls engine Delete using the entity's key"). *)
Definition Delete (dao : t) (bo : Group) (s : St) : (bool * option error) * St :=
  let '((numRows, err), s') :=
    GdaoDelete (engine dao) (tableName dao) {[ colGroupId := Id bo ]} s in
  (((0 <? numRows)%nat, err), s').

End Dao.
Arguments t : clear implicits.
End GroupDaoSqlite.

(** ** UserDaoSqlite

    The struct is declared in dao_sqlite.go; its methods are not in that
    file. *)
Module UserDaoSqlite.
Section Dao.
Context `{K : Constants} {St : Type}.

Record t := {
  engine : GenericDaoSql St;
  tableName : string }.

(** Modelled from the spec: [UserDaoSqlite.toBo], the bag-to-struct
    conversion of the User entity, after [GroupDaoSqlite.toBo]. *)
Definition toBo (gbo : option GenericBo) : outcome (option User) :=
  match gbo with
  | None => Ret None
  | Some gbo =>
      username ← assertString (GboGetAttrUnsafe gbo fieldUserUsername);
      password ← assertString (GboGetAttrUnsafe gbo fieldUserPassword);
      name ← assertString (GboGetAttrUnsafe gbo fieldUserName);
      gid ← assertString (GboGetAttrUnsafe gbo fieldUserGroupId);
      Ret (Some {| Username := username; Password := password;
                   UName := name; GroupId := gid |})
  end.

(** Modelled from the spec: [UserDaoSqlite.toGbo], the struct-to-bag
    conversion of the User entity, after [GroupDaoSqlite.toGbo]. *)
Definition toGbo (bo : option User) : option GenericBo :=
  match bo with
  | None => None
  | Some bo =>
      let gbo := NewGenericBo in
      let gbo := GboSetAttr gbo fieldUserUsername (Username bo) in
      let gbo := GboSetAttr gbo fieldUserPassword (Password bo) in
      let gbo := GboSetAttr gbo fieldUserName (UName bo) in
      let gbo := GboSetAttr gbo fieldUserGroupId (GroupId bo) in
      Some gbo
  end.

(** Modelled from the spec: [UserDaoSqlite.Create] ("constructs the
    domain struct from arguments (normalizing identifiers: trim
    whitespace, lower-case), converts to a bag, calls engine Create.
    Returns whether a row was actually inserted").  The identifiers of a
    user are its username and its group id. *)
Definition Create (dao : t) (username encryptedPassword name groupId : string) (s : St)
  : (bool * option error) * St :=
  let bo := {| Username := Strings.ToLower (Strings.TrimSpace username);
               Password := encryptedPassword;
               UName := name;
               GroupId := Strings.ToLower (Strings.TrimSpace groupId) |} in
  let '((numRows, err), s') := GdaoCreate (engine dao) (tableName dao) (toGbo (Some bo)) s in
  (((0 <? numRows)%nat, err), s').

(** Modelled from the spec: [UserDaoSqlite.Get] ("nil entity + nil error
    signals not found; non-nil error signals a storage-layer failure"),
    after [GroupDaoSqlite.Get]. *)
Definition Get (dao : t) (username : string) (s : St)
  : outcome ((option User * option error) * St) :=
  let '((gbo, err), s') :=
    GdaoFetchOne (engine dao) (tableName dao) {[ colUserUsername := username ]} s in
  match err with
  | Some e => Ret ((None, Some e), s')
  | None => bo ← toBo gbo; Ret ((bo, None), s')
  end.

(** Modelled from the spec: [UserDaoSqlite.Update] ("converts struct to
    bag, calls engine Update"). *)
Definition Update (dao : t) (bo : User) (s : St) : (bool * option error) * St :=
  let '((numRows, err), s') := GdaoUpdate (engine dao) (tableName dao) (toGbo (Some bo)) s in
  (((0 <? numRows)%nat, err), s').

(** Modelled from the spec: [UserDaoSqlite.Delete] ("calls engine Delete
    using the entity's key"). *)
Definition Delete (dao : t) (bo : User) (s : St) : (bool * option error) * St :=
  let '((numRows, err), s') :=
    GdaoDelete (engine dao) (tableName dao) {[ colUserUsername := Username bo ]} s in
  (((0 <? numRows)%nat, err), s').

End Dao.
Arguments t : clear implicits.
End UserDaoSqlite.

(** ** The storage engine behind the connection

    The generic DAO engine is imported by the package, not part of it;
    every definition of this module is modelled from the spec, section
    4.2, on an in-memory database. *)
Module Godal.

(** Modelled from the spec: the "bidirectional translation table
    (field→column, column→field) plus an explicit ordered column list",
    keyed by table as [newGroupDaoSqlite] fills [sql.GenericRowMapperSql]. *)
Record GenericRowMapperSql := {
  GboFieldToColNameTranslator : gmap string (gmap string string);
  ColNameToGboFieldTranslator : gmap string (gmap string string);
  ColumnsListMap : gmap string (list string) }.

(** Modelled from the spec: one table ("primary key: group id", "primary
    key: username"): its primary-key column and its rows, oldest first.  A
    row maps column names to values. *)
Record Table := {
  pk : string;
  rows : list (gmap string string) }.

(** Modelled from the spec: the database behind the connection handle:
    the tables by name, and the transport outcomes of the calls still to
    come ([Some e]: the next call fails with [e], a "StorageUnavailable"
    error; an exhausted list: no failure). *)
Record SqlConnect := {
  tables : gmap string Table;
  faults : list (option error) }.

(** Modelled from the spec: the "ConstraintViolation" error of a duplicate
    primary key. *)
Definition GdaoErrorDuplicatedEntry : error := "duplicated entry".

(** Modelled from the spec: "an error for any transport/SQL failure"; each
    call uses up the next pending outcome of the connection. *)
Definition transport (sqlc : SqlConnect) : option error * SqlConnect :=
  match faults sqlc with
  | [] => (None, sqlc)
  | f :: rest => (f, {| tables := tables sqlc; faults := rest |})
  end.

(** Modelled from the spec: "translation is purely table-driven"; a name
    the table does not list is kept. *)
Definition translate (tr : option (gmap string string)) (name : string) : string :=
  match tr with
  | Some m => default name (m !! name)
  | None => name
  end.

(** Modelled from the spec: the engine "translates field names to column
    names" through the table's field-to-column map. *)
Definition ToRow (rm : GenericRowMapperSql) (storageId : string) (gbo : GenericBo)
  : gmap string string :=
  kmap (translate (GboFieldToColNameTranslator rm !! storageId)) gbo.

(** Modelled from the spec: the way back, through the column-to-field
    map. *)
Definition ToBo (rm : GenericRowMapperSql) (storageId : string) (row : gmap string string)
  : GenericBo :=
  kmap (translate (ColNameToGboFieldTranslator rm !! storageId)) row.

(** Modelled from the spec: the "ordered column list used for statement
    generation": a fetched row is cut down to the listed columns. *)
Definition project (cols : list string) (row : gmap string string) : gmap string string :=
  list_to_map (omap (λ c, (λ v, (c, v)) <$> row !! c) cols).

(** Modelled from the spec: "looks up by primary key equality"; a row
    matches a filter when it has the filter's value in each of its columns. *)
Definition matches (filter row : gmap string string) : bool :=
  bool_decide (map_Forall (λ c v, row !! c = Some v) filter).

(** Modelled from the spec: "duplicate key": two rows collide when both
    have the same value in the key column. *)
Definition sameKey (key : string) (row row' : gmap string string) : bool :=
  match row !! key with
  | Some v => bool_decide (row' !! key = Some v)
  | None => false
  end.

(** Modelled from the spec: a write replaces the rows of one table. *)
Definition setRows (sqlc : SqlConnect) (storageId : string) (t : Table)
    (rs : list (gmap string string)) : SqlConnect :=
  {| tables := <[storageId := {| pk := pk t; rows := rs |}]> (tables sqlc);
     faults := faults sqlc |}.

(** Modelled from the spec: the SQL failure of a statement on a table that
    was not created. *)
Definition noSuchTable (storageId : string) : error := "no such table: " +:+ storageId.

(** Modelled from the spec: "Create(table, bag) inserts a new row with one
    column per bag entry [...]. Returns the count of rows affected (0 or
    1) and an error. Fails with ConstraintViolation if the primary key
    already exists". *)
Definition GdaoCreate (rm : GenericRowMapperSql) (storageId : string)
    (bo : option GenericBo) (sqlc : SqlConnect) : (nat * option error) * SqlConnect :=
  let '(fault, sqlc) := transport sqlc in
  match fault, bo, tables sqlc !! storageId with
  | Some e, _, _ => ((0, Some e), sqlc)
  | None, None, _ => ((0, Some "nil business object"), sqlc)
  | None, Some _, None => ((0, Some (noSuchTable storageId)), sqlc)
  | None, Some gbo, Some t =>
      let row := ToRow rm storageId gbo in
      if existsb (sameKey (pk t) row) (rows t)
      then ((0, Some GdaoErrorDuplicatedEntry), sqlc)
      else ((1, None), setRows sqlc storageId t (rows t ++ [row]))
  end.

(** Modelled from the spec: "FetchOne(table, keyFilter) looks up by
    primary key equality; returns the matching bag or not found
    (represented as an absent/nil result, not an error) plus an error for
    any transport/SQL failure". *)
Definition GdaoFetchOne (rm : GenericRowMapperSql) (storageId : string)
    (filter : gmap string string) (sqlc : SqlConnect)
  : (option GenericBo * option error) * SqlConnect :=
  let '(fault, sqlc) := transport sqlc in
  match fault, tables sqlc !! storageId with
  | Some e, _ => ((None, Some e), sqlc)
  | None, None => ((None, Some (noSuchTable storageId)), sqlc)
  | None, Some t =>
      match find (matches filter) (rows t) with
      | None => ((None, None), sqlc)
      | Some row =>
          let cols := default [] (ColumnsListMap rm !! storageId) in
          ((Some (ToBo rm storageId (project cols row)), None), sqlc)
      end
  end.

(** Modelled from the spec: "Update(table, bag) replaces all non-key
    columns of the row identified by the bag's key field(s). Returns
    rows-affected count; 0 rows affected when the key does not exist is
    NOT treated as an error by this layer". *)
Definition GdaoUpdate (rm : GenericRowMapperSql) (storageId : string)
    (bo : option GenericBo) (sqlc : SqlConnect) : (nat * option error) * SqlConnect :=
  let '(fault, sqlc) := transport sqlc in
  match fault, bo, tables sqlc !! storageId with
  | Some e, _, _ => ((0, Some e), sqlc)
  | None, None, _ => ((0, Some "nil business object"), sqlc)
  | None, Some _, None => ((0, Some (noSuchTable storageId)), sqlc)
  | None, Some gbo, Some t =>
      let row := ToRow rm storageId gbo in
      let hit := sameKey (pk t) row in
      ((length (filter (λ r, hit r = true) (rows t)), None),
       setRows sqlc storageId t
         ((λ r, if hit r then row ∪ r else r) <$> rows t))
  end.

(** Modelled from the spec: "Delete(table, keyFilter) removes the row by
    primary key. Returns rows-affected count and error". *)
Definition GdaoDelete (rm : GenericRowMapperSql) (storageId : string)
    (flt : gmap string string) (sqlc : SqlConnect) : (nat * option error) * SqlConnect :=
  let '(fault, sqlc) := transport sqlc in
  match fault, tables sqlc !! storageId with
  | Some e, _ => ((0, Some e), sqlc)
  | None, None => ((0, Some (noSuchTable storageId)), sqlc)
  | None, Some t =>
      ((length (filter (λ r, matches flt r = true) (rows t)), None),
       setRows sqlc storageId t (filter (λ r, matches flt r = false) (rows t)))
  end.

(** Modelled from the spec: the engine "parameterized by (a) an active SQL
    connection, (b) a table name, (c) the translation tables", as
    [sql.NewGenericDaoSql] followed by [SetRowMapper] sets it up. *)
Definition NewGenericDaoSql (rm : GenericRowMapperSql) : GenericDaoSql SqlConnect :=
  Build_GenericDaoSql SqlConnect
    (GdaoCreate rm) (GdaoFetchOne rm) (GdaoUpdate rm) (GdaoDelete rm).

End Godal.

(** ** Ways to describe a database *)

(** The connection has no failure pending. *)
Definition healthy (s : Godal.SqlConnect) : Prop := Godal.faults s = [].

(** The rows of one table (none when the table is missing). *)
Definition rowsOf (tableName : string) (s : Godal.SqlConnect) : list (gmap string string) :=
  match Godal.tables s !! tableName with
  | Some t => Godal.rows t
  | None => []
  end.


(** No row of the table has [v] in column [col]. *)
Definition absent (tableName col v : string) (s : Godal.SqlConnect) : Prop :=
  Forall (λ r, r !! col ≠ Some v) (rowsOf tableName s).

(** Every group id stored in the table is in normal form; [Create] keeps
    a table that way. *)
Definition keysNormalized (tableName : string) (s : Godal.SqlConnect) : Prop :=
  Forall (λ r, ∀ v, r !! colGroupId = Some v → normalize v = v) (rowsOf tableName s).

(** The row of a group, and of a user, under the column names of
    dao_sqlite.go. *)
Definition groupRow (i n : string) : gmap string string :=
  <[colGroupName := n]> (<[colGroupId := i]> ∅).

Definition userRow (username password name gid : string) : gmap string string :=
  <[colUserGroupId := gid]> (<[colUserName := name]>
    (<[colUserPassword := password]> (<[colUserUsername := username]> ∅))).

(** ** Connection and table set-up (dao_sqlite.go) *)
Section Setup.
Context `{K : Constants}.

(** [CREATE TABLE IF NOT EXISTS tableName (..., PRIMARY KEY (key))]. *)
Definition createTableIfNotExists (sqlc : Godal.SqlConnect) (tableName key : string)
  : Godal.SqlConnect :=
  match Godal.tables sqlc !! tableName with
  | Some _ => sqlc
  | None =>
      {| Godal.tables :=
           <[tableName := {| Godal.pk := key; Godal.rows := [] |}]> (Godal.tables sqlc);
         Godal.faults := Godal.faults sqlc |}
  end.

Definition sqliteInitTableGroup (sqlc : Godal.SqlConnect) (tableName : string)
  : Godal.SqlConnect :=
  createTableIfNotExists sqlc tableName colGroupId.

Definition sqliteInitTableUser (sqlc : Godal.SqlConnect) (tableName : string)
  : Godal.SqlConnect :=
  createTableIfNotExists sqlc tableName colUserUsername.

Definition newUserDaoSqlite (tableName : string) : UserDaoSqlite.t Godal.SqlConnect :=
  {| UserDaoSqlite.tableName := tableName;
     UserDaoSqlite.engine :=
       Godal.NewGenericDaoSql
         {| Godal.GboFieldToColNameTranslator := {[ tableName := mapFieldToColNameUser ]};
            Godal.ColNameToGboFieldTranslator := {[ tableName := mapColNameToFieldUser ]};
            Godal.ColumnsListMap := {[ tableName := colsUser ]} |} |}.

Definition newGroupDaoSqlite (tableName : string) : GroupDaoSqlite.t Godal.SqlConnect :=
  {| GroupDaoSqlite.tableName := tableName;
     GroupDaoSqlite.engine :=
       Godal.NewGenericDaoSql
         {| Godal.GboFieldToColNameTranslator := {[ tableName := mapFieldToColNameGroup ]};
            Godal.ColNameToGboFieldTranslator := {[ tableName := mapColNameToFieldGroup ]};
            Godal.ColumnsListMap := {[ tableName := colsGroup ]} |} |}.

End Setup.

(** ** Programs over the DAO interfaces

    bootstrap.go reaches storage only through the package variables
    [groupDao : GroupDao] and [userDao : UserDao], which are interface
    values.  A [Call] is one call through those interfaces, or one of the
    other effects of the functions embedded below (a log line, a flash
    message put into the session, a random token). *)
Inductive Call : Type :=
| GroupDao_Get (id : string)
| GroupDao_Create (id name : string)
| GroupDao_Update (bo : Group)
| GroupDao_Delete (bo : Group)
| UserDao_Get (username : string)
| UserDao_Create (username encryptedPassword name groupId : string)
| UserDao_Update (bo : User)
| UserDao_Delete (bo : User)
| log_Printf (line : string)
| addFlashMsg (msg : string)
| RandomString (n : nat).

(** What the call hands back. *)
Definition Ans (c : Call) : Type :=
  match c with
  | GroupDao_Get _ => option Group * option error
  | UserDao_Get _ => option User * option error
  | GroupDao_Create _ _ | GroupDao_Update _ | GroupDao_Delete _
  | UserDao_Create _ _ _ _ | UserDao_Update _ | UserDao_Delete _ => bool * option error
  | log_Printf _ | addFlashMsg _ => unit
  | RandomString _ => string
  end.

Inductive Prog (A : Type) : Type :=
| Done (a : A)                               (* return a *)
| Abort (msg : string)                       (* panic(msg) *)
| Do (c : Call) (k : Ans c → Prog A).        (* x := c; k x *)
Arguments Done {A} a.
Arguments Abort {A} msg.
Arguments Do {A} c k.

Fixpoint pbind {A B} (p : Prog A) (f : A → Prog B) : Prog B :=
  match p with
  | Done a => f a
  | Abort msg => Abort msg
  | Do c k => Do c (λ x, pbind (k x) f)
  end.

Global Instance Prog_ret : MRet Prog := @Done.
Global Instance Prog_bind : MBind Prog := λ A B f p, pbind p f.

Definition call (c : Call) : Prog (Ans c) := Do c Done.

(** An implementation of the calls over a state [St]; a call may panic. *)
Definition Impl (St : Type) : Type := ∀ c : Call, St → outcome (Ans c * St).

(** One step of a run: a call with what it handed back, or a call that
    panicked. *)
Inductive Event : Type :=
| Answered (c : Call) (a : Ans c)
| Panicked (c : Call).

Definition evCall (ev : Event) : Call :=
  match ev with
  | Answered c _ => c
  | Panicked c => c
  end.

(** Run a program: the steps taken, in order, and how the run ended. *)
Fixpoint run {St A} (h : Impl St) (p : Prog A) (s : St) : list Event * outcome (A * St) :=
  match p with
  | Done a => ([], Ret (a, s))
  | Abort msg => ([], Panic msg)
  | Do c k =>
      match h c s with
      | Ret (x, s') => let '(evs, r) := run h (k x) s' in (Answered c x :: evs, r)
      | Panic msg => ([Panicked c], Panic msg)
      end
  end.

(** The calls that change stored rows. *)
Definition isWrite (c : Call) : bool :=
  match c with
  | GroupDao_Create _ _ | GroupDao_Update _ | GroupDao_Delete _
  | UserDao_Create _ _ _ _ | UserDao_Update _ | UserDao_Delete _ => true
  | _ => false
  end.

(** A [Create] that came back with a non-nil error. *)
Definition createErrored (ev : Event) : bool :=
  match ev with
  | Answered (GroupDao_Create _ _) (_, Some _) => true
  | Answered (UserDao_Create _ _ _ _) (_, Some _) => true
  | _ => false
  end.

(** A [Create] that came back with [false] and a nil error: nothing was
    inserted, and nothing was reported. *)
Definition createRefused (ev : Event) : bool :=
  match ev with
  | Answered (GroupDao_Create _ _) (false, None) => true
  | Answered (UserDao_Create _ _ _ _) (false, None) => true
  | _ => false
  end.

(** A [Create] that did not insert its row, one way or the other. *)
Definition createUnsuccessful (ev : Event) : bool :=
  createErrored ev || createRefused ev.

(** A DAO pair over a store that takes no row and says so only through the
    boolean: every [Get] finds nothing, every write reports [false] with a
    nil error. *)
Definition refusingImpl : Impl unit :=
  λ c, match c as c0 return unit → outcome (Ans c0 * unit) with
       | GroupDao_Get _ => λ s, Ret ((None, None), s)
       | UserDao_Get _ => λ s, Ret ((None, None), s)
       | GroupDao_Create _ _ | GroupDao_Update _ | GroupDao_Delete _
       | UserDao_Create _ _ _ _ | UserDao_Update _ | UserDao_Delete _ =>
           λ s, Ret ((false, None), s)
       | log_Printf _ | addFlashMsg _ => λ s, Ret (tt, s)
       | RandomString _ => λ s, Ret ("", s)
       end.

(** ** bootstrap.go: the reconciler *)
Section Bootstrap.
Context `{K : Constants}.

(** [initDaos], from [systemGroup, err := groupDao.Get(SystemGroupId)]
    to its end.  The [switch dbtype] in front of it only picks the
    implementations behind [groupDao] and [userDao]. *)
Definition initDaos : Prog unit :=
  '(systemGroup, err) ← call (GroupDao_Get SystemGroupId);
  match err with
  | Some e => Abort ("error while getting group [" +:+ SystemGroupId +:+ "]: " +:+ e)
  | None =>
      (match systemGroup with
       | None =>
           call (log_Printf ("System group [" +:+ SystemGroupId +:+ "] not found, creating one..."));;
           '(result, err) ← call (GroupDao_Create SystemGroupId "System User Group");
           match err with
           | Some e =>
               Abort ("error while creating group [" +:+ SystemGroupId +:+ "]: " +:+ e)
           | None =>
               if negb result
               then call (log_Printf ("Cannot create group [" +:+ SystemGroupId +:+ "]"))
               else Done tt
           end
       | Some _ => Done tt
       end);;
      '(adminUser, err) ← call (UserDao_Get AdminUserUsernname);
      match err with
      | Some e => Abort ("error while getting user [" +:+ AdminUserUsernname +:+ "]: " +:+ e)
      | None =>
          match adminUser with
          | None =>
              let pwd := "s3cr3t" in
              call (log_Printf ("Admin user [" +:+ AdminUserUsernname
                                +:+ "] not found, creating one with password [" +:+ pwd +:+ "]..."));;
              '(result, err) ← call (UserDao_Create AdminUserUsernname
                                       (encryptPassword AdminUserUsernname pwd)
                                       AdminUserName SystemGroupId);
              match err with
              | Some e =>
                  Abort ("error while creating user [" +:+ AdminUserUsernname +:+ "]: " +:+ e)
              | None =>
                  if negb result
                  then call (log_Printf ("Cannot create user [" +:+ AdminUserUsernname +:+ "]"))
                  else Done tt
              end
          | Some _ => Done tt
          end
      end
  end.

(** The two halves of [initDaos], one entity each; a run of [initDaos] is a
    run of the first followed by a run of the second. *)
Definition ensureSystemGroup : Prog unit :=
  '(systemGroup, err) ← call (GroupDao_Get SystemGroupId);
  match err with
  | Some e => Abort ("error while getting group [" +:+ SystemGroupId +:+ "]: " +:+ e)
  | None =>
      match systemGroup with
      | None =>
          call (log_Printf ("System group [" +:+ SystemGroupId +:+ "] not found, creating one..."));;
          '(result, err) ← call (GroupDao_Create SystemGroupId "System User Group");
          match err with
          | Some e =>
              Abort ("error while creating group [" +:+ SystemGroupId +:+ "]: " +:+ e)
          | None =>
              if negb result
              then call (log_Printf ("Cannot create group [" +:+ SystemGroupId +:+ "]"))
              else Done tt
          end
      | Some _ => Done tt
      end
  end.

Definition ensureAdminUser : Prog unit :=
  '(adminUser, err) ← call (UserDao_Get AdminUserUsernname);
  match err with
  | Some e => Abort ("error while getting user [" +:+ AdminUserUsernname +:+ "]: " +:+ e)
  | None =>
      match adminUser with
      | None =>
          let pwd := "s3cr3t" in
          call (log_Printf ("Admin user [" +:+ AdminUserUsernname
                            +:+ "] not found, creating one with password [" +:+ pwd +:+ "]..."));;
          '(result, err) ← call (UserDao_Create AdminUserUsernname
                                   (encryptPassword AdminUserUsernname pwd)
                                   AdminUserName SystemGroupId);
          match err with
          | Some e =>
              Abort ("error while creating user [" +:+ AdminUserUsernname +:+ "]: " +:+ e)
          | None =>
              if negb result
              then call (log_Printf ("Cannot create user [" +:+ AdminUserUsernname +:+ "]"))
              else Done tt
          end
      | Some _ => Done tt
      end
  end.

End Bootstrap.

(** ** bootstrap.go: the guarded handlers *)

Definition actionNameCpProfile : string := "cp_profile".
Definition actionNameCpGroups : string := "cp_groups".
Definition actionNameCpUsers : string := "cp_users".

Definition StatusOK : nat := 200.
Definition StatusFound : nat := 302.

(** [url.Values] and [Values.Get]: the first value of the key, or [""]. *)
Definition Values_Get (v : gmap string (list string)) (key : string) : string :=
  match v !! key with
  | Some (x :: _) => x
  | _ => ""
  end.

(** What a handler reads from its [echo.Context].  [getCurrentUser] is
    declared outside bootstrap.go; the pair it returns for the request is
    part of the request here. *)
Record Context := {
  getCurrentUser : option User * option error;
  QueryParam : string → string;
  FormParams : gmap string (list string) * option error }.

(** A value put into a view's data map.  [toGroupModel] and [toUserModel]
    are declared outside bootstrap.go; the entity stands for its view
    model. *)
Inductive Datum : Type :=
| DString (s : string)
| DGroup (g : Group)
| DUser (u : User).

Inductive Response : Type :=
| Redirect (code : nat) (url : string)
| Render (code : nat) (name : string) (data : list (string * Datum)).

Section Handlers.
Context `{K : Constants}.

Definition Text1 (key : string) (arg : string) : string := i18nText key [arg].
Definition Text2 (key : string) (a b : string) : string := i18nText key [a; b].

(** The redirect that ends every rejected request:
    [c.Redirect(http.StatusFound, Reverse(name) + "?r=" + utils.RandomString(4))]. *)
Definition redirectTo (name : string) : Prog Response :=
  r ← call (RandomString 4);
  Done (Redirect StatusFound (Reverse name +:+ "?r=" +:+ r)).

Definition actionCpChangePasswordSubmit (c : Context) : Prog Response :=
  let end_ (errMsg : string) : Prog Response :=
    Done (Render StatusOK (namespace +:+ ":layout:cp_profile")
            [("active", DString "profile"); ("error", DString errMsg)]) in
  let '(currentUser, err) := getCurrentUser c in
  match err, currentUser with
  | Some e, _ => end_ (Text1 "error_db_101" ("current_user/" +:+ e))
  | None, None => Done (Redirect StatusFound (Reverse actionNameCpProfile))
  | None, Some currentUser =>
      if bool_decide (Username currentUser = AdminUserUsernname)
      then end_ "Cannot change system admin account's password"
      else
        let '(formData, err) := FormParams c in
        match err with
        | Some e => end_ (Text1 "error_form_400" e)
        | None =>
            let currentPwd := Strings.TrimSpace (Values_Get formData "currentPassword") in
            let encPwd := encryptPassword (Username currentUser) currentPwd in
            if bool_decide (encPwd ≠ Password currentUser)
            then end_ (i18nText "error_password_not_matched" [])
            else
              let pwd := Strings.TrimSpace (Values_Get formData "password") in
              let pwd2 := Strings.TrimSpace (Values_Get formData "password2") in
              if bool_decide (pwd = "")
              then end_ (i18nText "error_empty_user_password" [])
              else if bool_decide (pwd ≠ pwd2)
              then end_ (i18nText "error_mismatched_passwords" [])
              else
                let currentUser :=
                  {| Username := Username currentUser;
                     Password := encryptPassword (Username currentUser) pwd;
                     UName := UName currentUser;
                     GroupId := GroupId currentUser |} in
                '(_, err) ← call (UserDao_Update currentUser);
                match err with
                | Some e => end_ (Text2 "error_update_user" (Username currentUser) e)
                | None =>
                    call (addFlashMsg (i18nText "change_password_successful" []));;
                    end_ ""
                end
        end
  end.

Definition checkCpDeleteGroup (c : Context) : Prog (option Group * option error) :=
  let '(currentUser, err) := getCurrentUser c in
  match err with
  | Some e =>
      Done (None, Some (errors_New (Text1 "error_db_101" ("current_user/" +:+ e))))
  | None =>
      if bool_decide (currentUser = None ∨ GroupId <$> currentUser ≠ Some SystemGroupId)
      then (* only admin can delete groups *)
        Done (None, Some (errors_New (i18nText "error_no_permission" [])))
      else
        let gid := QueryParam c "id" in
        '(group, err) ← call (GroupDao_Get gid);
        match err, group with
        | Some e, _ =>
            Done (None, Some (errors_New (Text1 "error_db_101" (gid +:+ "/" +:+ e))))
        | None, None =>
            Done (None, Some (errors_New (Text1 "error_group_not_found" gid)))
        | None, Some g =>
            if bool_decide (Id g = SystemGroupId)
            then Done (None, Some (errors_New (Text1 "error_delete_system_group" gid)))
            else Done (Some g, None)
        end
  end.

(** With a nil error the group is never nil (see [checkCpDeleteGroup]);
    the handlers below would dereference a nil pointer otherwise. *)
Definition actionCpDeleteGroup (c : Context) : Prog Response :=
  '(group, err) ← checkCpDeleteGroup c;
  match err, group with
  | Some e, _ =>
      call (addFlashMsg (flashPrefixWarning +:+ e));;
      redirectTo actionNameCpGroups
  | None, Some g =>
      Done (Render StatusOK (namespace +:+ ":layout:cp_delete_group")
              [("active", DString "groups"); ("userGroup", DGroup g)])
  | None, None => Abort "invalid memory address or nil pointer dereference"
  end.

Definition actionCpDeleteGroupSubmit (c : Context) : Prog Response :=
  '(group, err) ← checkCpDeleteGroup c;
  match err, group with
  | Some e, _ =>
      call (addFlashMsg (flashPrefixWarning +:+ e));;
      redirectTo actionNameCpGroups
  | None, None => Abort "invalid memory address or nil pointer dereference"
  | None, Some g =>
      '(_, err) ← call (GroupDao_Delete g);
      match err with
      | Some e =>
          Done (Render StatusOK (namespace +:+ ":layout:cp_delete_group")
                  [("active", DString "groups"); ("userGroup", DGroup g);
                   ("error", DString (Text2 "error_delete_group" (Id g) e))])
      | None =>
          call (addFlashMsg (Text1 "delete_group_successful" (Id g)));;
          redirectTo actionNameCpGroups
      end
  end.

Definition checkCpDeleteUser (c : Context) : Prog (option User * option error) :=
  let '(currentUser, err) := getCurrentUser c in
  match err with
  | Some e =>
      Done (None, Some (errors_New (Text1 "error_db_101" ("current_user/" +:+ e))))
  | None =>
      if bool_decide (currentUser = None ∨ GroupId <$> currentUser ≠ Some SystemGroupId)
      then (* only admin can delete users *)
        Done (None, Some (errors_New (i18nText "error_no_permission" [])))
      else
        let username := QueryParam c "u" in
        '(user, err) ← call (UserDao_Get username);
        match err, user with
        | Some e, _ =>
            Done (None, Some (errors_New (Text1 "error_db_101" (username +:+ "/" +:+ e))))
        | None, None =>
            Done (None, Some (errors_New (Text1 "error_user_not_found" username)))
        | None, Some u =>
            if bool_decide (username = AdminUserUsernname)
            then Done (None, Some (errors_New (Text1 "error_delete_system_user" username)))
            else Done (Some u, None)
        end
  end.

Definition actionCpDeleteUser (c : Context) : Prog Response :=
  '(user, err) ← checkCpDeleteUser c;
  match err, user with
  | Some e, _ =>
      call (addFlashMsg (flashPrefixWarning +:+ e));;
      redirectTo actionNameCpUsers
  | None, Some u =>
      Done (Render StatusOK (namespace +:+ ":layout:cp_delete_user")
              [("active", DString "users"); ("user", DUser u)])
  | None, None => Abort "invalid memory address or nil pointer dereference"
  end.

Definition actionCpDeleteUserSubmit (c : Context) : Prog Response :=
  '(user, err) ← checkCpDeleteUser c;
  match err, user with
  | Some e, _ =>
      call (addFlashMsg (flashPrefixWarning +:+ e));;
      redirectTo actionNameCpUsers
  | None, None => Abort "invalid memory address or nil pointer dereference"
  | None, Some u =>
      '(_, err) ← call (UserDao_Delete u);
      match err with
      | Some e =>
          Done (Render StatusOK (namespace +:+ ":layout:cp_delete_user")
                  [("active", DString "users"); ("user", DUser u);
                   ("error", DString (Text2 "error_delete_user" (Username u) e))])
      | None =>
          call (addFlashMsg (Text1 "delete_user_successful" (Username u)));;
          redirectTo actionNameCpUsers
      end
  end.

End Handlers.

(** ** Calls on the protected entities *)
Section Protected.
Context `{K : Constants}.

(** [groupDao.Delete] on a group whose id is the system group's. *)
Definition deletesSystemGroup (c : Call) : bool :=
  match c with
  | GroupDao_Delete g => bool_decide (Id g = SystemGroupId)
  | _ => false
  end.

(** [userDao.Delete] on a user whose username is the admin's. *)
Definition deletesAdminUser (c : Call) : bool :=
  match c with
  | UserDao_Delete u => bool_decide (Username u = AdminUserUsernname)
  | _ => false
  end.

(** [userDao.Update] on a user whose username is the admin's. *)
Definition updatesAdminUser (c : Call) : bool :=
  match c with
  | UserDao_Update u => bool_decide (Username u = AdminUserUsernname)
  | _ => false
  end.

(** [userDao.Get(k)], when it finds a user, finds the user named [k]. *)
Definition getIsKeyed {St : Type} (h : Impl St) : Prop :=
  ∀ k s u err s', h (UserDao_Get k) s = Ret ((Some u, err), s') → Username u = k.

End Protected.

(** ** The SQLite wiring of [initDaos]

    [case "sqlite"] of the [switch dbtype]: the tables are created when
    missing and the two package variables get their SQLite DAOs. *)
Section Sqlite.
Context `{K : Constants}.

Definition groupDao : GroupDaoSqlite.t Godal.SqlConnect :=
  newGroupDaoSqlite sqliteTableGroup.

Definition userDao : UserDaoSqlite.t Godal.SqlConnect :=
  newUserDaoSqlite sqliteTableUser.

(** Everything a run can touch: the database, the log, the session's
    flash messages, and the tokens [utils.RandomString] will hand out. *)
Record World := {
  sqlc : Godal.SqlConnect;
  logged : list string;
  flashes : list string;
  entropy : list string }.

Definition withSqlc (w : World) (s : Godal.SqlConnect) : World :=
  {| sqlc := s; logged := logged w; flashes := flashes w; entropy := entropy w |}.

Definition liftDao {A} (w : World) (r : A * Godal.SqlConnect) : outcome (A * World) :=
  Ret (r.1, withSqlc w r.2).

Definition sqliteImpl : Impl World :=
  λ c, match c as c0 return World → outcome (Ans c0 * World) with
       | GroupDao_Get id => λ w,
           r ← GroupDaoSqlite.Get groupDao id (sqlc w); liftDao w r
       | GroupDao_Create id name => λ w,
           liftDao w (GroupDaoSqlite.Create groupDao id name (sqlc w))
       | GroupDao_Update bo => λ w,
           liftDao w (GroupDaoSqlite.Update groupDao bo (sqlc w))
       | GroupDao_Delete bo => λ w,
           liftDao w (GroupDaoSqlite.Delete groupDao bo (sqlc w))
       | UserDao_Get username => λ w,
           r ← UserDaoSqlite.Get userDao username (sqlc w); liftDao w r
       | UserDao_Create username pwd name gid => λ w,
           liftDao w (UserDaoSqlite.Create userDao username pwd name gid (sqlc w))
       | UserDao_Update bo => λ w,
           liftDao w (UserDaoSqlite.Update userDao bo (sqlc w))
       | UserDao_Delete bo => λ w,
           liftDao w (UserDaoSqlite.Delete userDao bo (sqlc w))
       | log_Printf line => λ w,
           Ret (tt, {| sqlc := sqlc w; logged := logged w ++ [line];
                       flashes := flashes w; entropy := entropy w |})
       | addFlashMsg msg => λ w,
           Ret (tt, {| sqlc := sqlc w; logged := logged w;
                       flashes := flashes w ++ [msg]; entropy := entropy w |})
       | RandomString n => λ w,
           Ret (hd "" (entropy w),
                {| sqlc := sqlc w; logged := logged w;
                   flashes := flashes w; entropy := tl (entropy w) |})
       end.

Definition initDaos_sqlite (w : World) : list Event * outcome (unit * World) :=
  let s := sqliteInitTableGroup (sqlc w) sqliteTableGroup in
  let s := sqliteInitTableUser s sqliteTableUser in
  run sqliteImpl initDaos (withSqlc w s).

(** The reconciler's goal: a fetch of the well-known key finds the entity
    (and, the connection being sound, leaves the world as it is). *)
Definition groupPresent (w : World) : Prop :=
  ∃ g, sqliteImpl (GroupDao_Get SystemGroupId) w = Ret ((Some g, None), w).

Definition userPresent (w : World) : Prop :=
  ∃ u, sqliteImpl (UserDao_Get AdminUserUsernname) w = Ret ((Some u, None), w).

(** A database with no table in it and a sound connection. *)
Definition emptyStore : World :=
  {| sqlc := {| Godal.tables := ∅; Godal.faults := [] |};
     logged := []; flashes := []; entropy := [] |}.

(** All rows of a database, whatever the table. *)
Definition allRows (s : Godal.SqlConnect) : gmap string (list (gmap string string)) :=
  Godal.rows <$> Godal.tables s.

Definition rowCount (s : Godal.SqlConnect) : nat :=
  map_fold (λ _ rs n, length rs + n) 0 (allRows s).

End Sqlite.

(** ** What is assumed of the missing declarations *)
Section Assumptions.
Context `{K : Constants}.

(** The package compiles and its two tables are two tables. *)
Definition declarations_sound : Prop :=
  group_fields_distinct ∧ user_fields_distinct ∧ sqliteTableGroup ≠ sqliteTableUser.

(** The two well-known ids are written the way [Create] stores ids. *)
Definition ids_normalized : Prop :=
  normalize SystemGroupId = SystemGroupId ∧
  normalize AdminUserUsernname = AdminUserUsernname.

End Assumptions.

(** One choice of the missing declarations, to run the model on: ids and
    field names are lower-case words. *)
Definition sample : Constants := {|
  SystemGroupId := "administrator";
  AdminUserUsernname := "admin";
  AdminUserName := "Adminstrator";
  fieldGroupId := "id";
  fieldGroupName := "name";
  fieldUserUsername := "username";
  fieldUserPassword := "password";
  fieldUserName := "name";
  fieldUserGroupId := "gid";
  sqliteTableGroup := tableGroup;
  sqliteTableUser := tableUser;
  flashPrefixWarning := "_warning_:";
  encryptPassword := λ username pwd, "md5(" +:+ username +:+ "." +:+ pwd +:+ ")";
  i18nText := λ key args, key +:+ "(" +:+ String.concat "," args +:+ ")";
  Reverse := λ name, "/" +:+ name |}.

(** Sample databases and requests under [sample]. *)
Definition sampleDb : Godal.SqlConnect :=
  sqliteInitTableUser
    (sqliteInitTableGroup {| Godal.tables := ∅; Godal.faults := [] |} tableGroup)
    tableUser.

(** The same tables behind a connection whose calls fail as listed. *)
Definition sampleDbWith (fs : list (option error)) : Godal.SqlConnect :=
  {| Godal.tables := Godal.tables sampleDb; Godal.faults := fs |}.

Definition sampleWorldWith (fs : list (option error)) : World :=
  {| sqlc := sampleDbWith fs; logged := []; flashes := []; entropy := ["x7Qa"] |}.

(** The world a first start leaves behind. *)
Definition bootstrapped : World :=
  match (initDaos_sqlite (K := sample) emptyStore).2 with
  | Ret (_, w) => w
  | Panic _ => emptyStore
  end.

Definition sampleAdmin : User :=
  {| Username := "admin"; Password := "md5(admin.s3cr3t)";
     UName := "Adminstrator"; GroupId := "administrator" |}.

(** A request of the admin user that names group [gid] and user [u]. *)
Definition sampleRequest (gid u : string) : Context :=
  {| getCurrentUser := (Some sampleAdmin, None);
     QueryParam := λ k, if String.eqb k "id" then gid
                        else if String.eqb k "u" then u else "";
     FormParams := (∅, None) |}.

(** [bootstrapped] with one more group, "staff". *)
Definition withStaff : World :=
  match @sqliteImpl sample (GroupDao_Create "staff" "Staff") bootstrapped with
  | Ret (_, w) => w
  | Panic _ => bootstrapped
  end.

(** * More of the package

    The rest of dao_sqlite.go and bootstrap.go that can be embedded, and
    what is needed to state its properties. *)

(** ** A group table as a list of groups *)




Section CreateAll.
Context `{K : Constants} {St : Type}.


End CreateAll.


(** ** The calls of the reconciler *)
Section ReconcilerCalls.
Context `{K : Constants}.

(** The calls [initDaos] can make: the two fetches and the two creations,
    each with the arguments the source gives it, and log lines. *)
Definition reconcilerCall (c : Call) : bool :=
  match c with
  | GroupDao_Get id => bool_decide (id = SystemGroupId)
  | GroupDao_Create id name =>
      bool_decide (id = SystemGroupId ∧ name = "System User Group")
  | UserDao_Get username => bool_decide (username = AdminUserUsernname)
  | UserDao_Create username pwd name gid =>
      bool_decide (username = AdminUserUsernname ∧
                   pwd = encryptPassword AdminUserUsernname "s3cr3t" ∧
                   name = AdminUserName ∧ gid = SystemGroupId)
  | log_Printf _ => true
  | _ => false
  end.

End ReconcilerCalls.

Definition isGroupCreate (c : Call) : bool :=
  match c with GroupDao_Create _ _ => true | _ => false end.

Definition isUserCreate (c : Call) : bool :=
  match c with UserDao_Create _ _ _ _ => true | _ => false end.

(** A fetch that came back with an entity. *)
Definition groupFound (ev : Event) : bool :=
  match ev with Answered (GroupDao_Get _) (Some _, _) => true | _ => false end.

Definition userFound (ev : Event) : bool :=
  match ev with Answered (UserDao_Get _) (Some _, _) => true | _ => false end.

(** A fetch that came back with a non-nil error. *)
Definition fetchErrored (ev : Event) : bool :=
  match ev with
  | Answered (GroupDao_Get _) (_, Some _) => true
  | Answered (UserDao_Get _) (_, Some _) => true
  | _ => false
  end.

(** The sample declarations with the system group's id capitalised. *)
Definition sampleMixedCase : Constants := {|
  SystemGroupId := "Administrator";
  AdminUserUsernname := "admin";
  AdminUserName := "Adminstrator";
  fieldGroupId := "id";
  fieldGroupName := "name";
  fieldUserUsername := "username";
  fieldUserPassword := "password";
  fieldUserName := "name";
  fieldUserGroupId := "gid";
  sqliteTableGroup := tableGroup;
  sqliteTableUser := tableUser;
  flashPrefixWarning := "_warning_:";
  encryptPassword := λ username pwd, "md5(" +:+ username +:+ "." +:+ pwd +:+ ")";
  i18nText := λ key args, key +:+ "(" +:+ String.concat "," args +:+ ")";
  Reverse := λ name, "/" +:+ name |}.

(** ** bootstrap.go: log-in and the create and edit flows *)

Definition actionNameCpLogin : string := "cp_login".
Definition actionNameCpDashboard : string := "cp_dashboard".
Definition sessionMyUid : string := "uid".

(** A value put into the data map of these handlers' views.
    [MyAppUtils.AllUserGroups] is declared outside bootstrap.go;
    [VAllUserGroups] stands for its result, whatever that is. *)
Inductive ViewValue : Type :=
| VString (s : string)
| VBool (b : bool)
| VForm (formData : gmap string (list string))
| VAllUserGroups.

Inductive Page : Type :=
| PRedirect (code : nat) (url : string)
| PRender (code : nat) (name : string) (data : list (string * ViewValue)).

(** [url.Values.Set]: the key gets exactly the one value. *)
Definition Values_Set (v : gmap string (list string)) (key value : string)
  : gmap string (list string) :=
  <[key := [value]]> v.

(** What [setSessionValue] was called with, in order: the key, and the
    value or [None] for [nil]. *)
Abbreviation SessionWrites := (list (string * option string)) (only parsing).

Section MoreHandlers.
Context `{K : Constants}.

(** [c.Redirect(http.StatusFound, Reverse(name) + "?r=" + utils.RandomString(4))] *)
Definition redirectPage (name : string) : Prog Page :=
  r ← call (RandomString 4);
  Done (PRedirect StatusFound (Reverse name +:+ "?r=" +:+ r)).

(** The function [middlewareRequiredAuth] returns.  [sessUid] is what
    [sess.Values[sessionMyUid]] holds, read as a string by
    [reddo.ToString], or [None] when the session has no such key; [next]
    is the wrapped handler, given the user that [c.Set(ctxCurrentUser, _)]
    stores. *)
Definition middlewareRequiredAuth (next : User → Prog Page) (sessUid : option string)
  : Prog Page :=
  currentUser ←
    match sessUid with
    | Some username =>
        '(currentUser, err) ← call (UserDao_Get username);
        match err with
        | Some e =>
            call (log_Printf ("error while fetching user [" +:+ username +:+ "]: " +:+ e));;
            Done currentUser
        | None => Done currentUser
        end
    | None => Done None
    end;
  match currentUser with
  | None => Done (PRedirect StatusFound (Reverse actionNameCpLogin))
  | Some u => next u
  end.

Definition actionCpLoginSubmit (c : Context) : Prog (Page * SessionWrites) :=
  let '(formData, err) := FormParams c in
  let end_ (errMsg : string) : Prog (Page * SessionWrites) :=
    Done (PRender StatusOK (namespace +:+ ":login")
            [("form", VForm formData); ("error", VString errMsg)], []) in
  match err with
  | Some e => end_ (Text1 "error_form_400" e)
  | None =>
      let username := Values_Get formData "username" in
      '(user, err) ← call (UserDao_Get username);
      match err, user with
      | Some e, _ => end_ (Text1 "error_db_001" e)
      | None, None => end_ (Text1 "error_user_not_found" username)
      | None, Some user =>
          let password := Values_Get formData "password" in
          let encPassword := encryptPassword (Username user) password in
          if bool_decide (encPassword ≠ Password user)
          then end_ (i18nText "error_login_failed" [])
          else (* login successful *)
            Done (PRedirect StatusFound (Reverse actionNameCpDashboard),
                  [(sessionMyUid, Some (Username user))])
      end
  end.

Definition actionCpLogout (c : Context) : Prog (Page * SessionWrites) :=
  Done (PRedirect StatusFound (Reverse actionNameCpDashboard), [(sessionMyUid, None)]).

Definition checkCpCreateGroup (c : Context) : option error :=
  let '(currentUser, err) := getCurrentUser c in
  match err with
  | Some e => Some (errors_New (Text1 "error_db_101" ("current_user/" +:+ e)))
  | None =>
      if bool_decide (currentUser = None ∨ GroupId <$> currentUser ≠ Some SystemGroupId)
      then (* only admin can create groups *)
        Some (errors_New (i18nText "error_no_permission" []))
      else None
  end.

Definition actionCpCreateGroup (c : Context) : Prog Page :=
  match checkCpCreateGroup c with
  | Some e =>
      call (addFlashMsg (flashPrefixWarning +:+ e));;
      redirectPage actionNameCpGroups
  | None =>
      let '(formData, _) := FormParams c in
      Done (PRender StatusOK (namespace +:+ ":layout:cp_create_edit_group")
              [("active", VString "groups"); ("form", VForm formData)])
  end.





Definition checkCpCreateUser (c : Context) : option error :=
  let '(currentUser, err) := getCurrentUser c in
  match err with
  | Some e => Some (errors_New (Text1 "error_db_101" ("current_user/" +:+ e)))
  | None =>
      if bool_decide (currentUser = None ∨ GroupId <$> currentUser ≠ Some SystemGroupId)
      then (* only admin can create users *)
        Some (errors_New (i18nText "error_no_permission" []))
      else None
  end.

Definition actionCpCreateUser (c : Context) : Prog Page :=
  match checkCpCreateUser c with
  | Some e =>
      call (addFlashMsg (flashPrefixWarning +:+ e));;
      redirectPage actionNameCpGroups
  | None =>
      let '(formData, _) := FormParams c in
      Done (PRender StatusOK (namespace +:+ ":layout:cp_create_edit_user")
              [("active", VString "users"); ("form", VForm formData);
               ("userGroups", VAllUserGroups)])
  end.


Definition checkCpEditUser (c : Context) : Prog (option User * option error) :=
  let '(currentUser, err) := getCurrentUser c in
  match err with
  | Some e =>
      Done (None, Some (errors_New (Text1 "error_db_101" ("current_user/" +:+ e))))
  | None =>
      if bool_decide (currentUser = None ∨ GroupId <$> currentUser ≠ Some SystemGroupId)
      then (* only admin can edit users *)
        Done (None, Some (errors_New (i18nText "error_no_permission" [])))
      else
        let username := QueryParam c "u" in
        '(user, err) ← call (UserDao_Get username);
        match err, user with
        | Some e, _ =>
            Done (None, Some (errors_New (Text1 "error_db_101" (username +:+ "/" +:+ e))))
        | None, None =>
            Done (None, Some (errors_New (Text1 "error_user_not_found" username)))
        | None, Some u =>
            if bool_decide (username = AdminUserUsernname)
            then Done (None, Some (errors_New
                   ("Cannot edit system account account [" +:+ username +:+ "]")))
            else Done (Some u, None)
        end
  end.

Definition actionCpEditUser (c : Context) : Prog Page :=
  '(user, err) ← checkCpEditUser c;
  match err, user with
  | Some e, _ =>
      call (addFlashMsg (flashPrefixWarning +:+ e));;
      redirectPage actionNameCpUsers
  | None, None => Abort "invalid memory address or nil pointer dereference"
  | None, Some user =>
      let formData :=
        Values_Set (Values_Set (Values_Set ∅ "username" (Username user))
                      "name" (UName user)) "group" (GroupId user) in
      Done (PRender StatusOK (namespace +:+ ":layout:cp_create_edit_user")
              [("active", VString "users"); ("editMode", VBool true);
               ("form", VForm formData); ("userGroups", VAllUserGroups);
               ("disableGroup", VBool (bool_decide (Username user = AdminUserUsernname)))])
  end.


End MoreHandlers.

(** The only write of a create flow, by kind. *)
Definition isCreate (c : Call) : bool := isGroupCreate c || isUserCreate c.

Definition isUpdate (c : Call) : bool :=
  match c with GroupDao_Update _ | UserDao_Update _ => true | _ => false end.


(** ** The flash message of a rendered page (myRenderer.Render) *)

(** [strings.HasPrefix(s, prefix)] *)
Definition HasPrefix (s prefix : string) : bool := String.prefix prefix s.

(** [s[n:]], for [n] within [s]. *)
Definition sliceFrom (n : nat) (s : string) : string :=
  String.substring n (String.length s - n) s.

Section Flash.
Context `{K : Constants}.

(** [flashPrefixError] and [flashPrefixInfo] are declared outside
    bootstrap.go. *)
Variables flashPrefixError flashPrefixInfo : string.

(** What [Render] adds to a view's data map for the flash messages
    [flash] read from the session: the first message only, filed by its
    prefix. *)
Definition flashView (flash : list string) : list (string * ViewValue) :=
  match flash with
  | [] => []
  | flashMsg :: _ =>
      if HasPrefix flashMsg flashPrefixWarning
      then [("flashWarning", VString (sliceFrom (String.length flashPrefixWarning) flashMsg))]
      else if HasPrefix flashMsg flashPrefixError
      then [("flashError", VString (sliceFrom (String.length flashPrefixError) flashMsg))]
      else if HasPrefix flashMsg flashPrefixInfo
      then [("flashInfo", VString (sliceFrom (String.length flashPrefixInfo) flashMsg))]
      else [("flashInfo", VString flashMsg)]
  end.

End Flash.

(** Sample forms and requests. *)
Definition sampleForm (fields : list (string * string)) : gmap string (list string) :=
  list_to_map ((λ p, (p.1, [p.2])) <$> fields).

(** A request of [currentUser] that names group [gid] and user [u] and
    posts [fields]. *)
Definition sampleSubmit (currentUser : option User) (gid u : string)
    (fields : list (string * string)) : Context :=
  {| getCurrentUser := (currentUser, None);
     QueryParam := λ k, if String.eqb k "id" then gid
                        else if String.eqb k "u" then u else "";
     FormParams := (sampleForm fields, None) |}.

Definition sampleStaff : User :=
  {| Username := "bob"; Password := "md5(bob.hunter2)";
     UName := "Bob"; GroupId := "staff" |}.

(** * Properties *)

Example ToLower_ex : Strings.ToLower "AdMin-01" = "admin-01".
Proof. reflexivity. Qed.

Example TrimSpace_ex : Strings.TrimSpace "  a b " = "a b".
Proof. reflexivity. Qed.

(** ** Normalised identifiers *)
Section StringFacts.
Import Strings.


Lemma isSpace_lowerByte c : isSpace (lowerByte c) = isSpace c.
Proof. by destruct c as [[] [] [] [] [] [] [] []]. Qed.






Lemma startsWithSpace_trimLeft s : startsWithSpace (trimLeft s) = false.
Proof.
  induction s as [|c r IH]; simpl; [done|].
  destruct (isSpace c) eqn:Hc; [done|]. unfold startsWithSpace; simpl. done.
Qed.

Lemma firstByte_trimRight s :
  trimRight s = EmptyString ∨ firstByte (trimRight s) = firstByte s.
Proof.
  destruct s as [|c r]; simpl; [by left|].
  destruct (trimRight r); [destruct (isSpace c)|]; auto.
Qed.

Lemma startsWithSpace_trimRight s :
  startsWithSpace s = false → startsWithSpace (trimRight s) = false.
Proof.
  intros Hs. unfold startsWithSpace in *.
  destruct (firstByte_trimRight s) as [-> | ->]; done.
Qed.

Lemma endsWithSpace_trimRight s : endsWithSpace (trimRight s) = false.
Proof.
  unfold endsWithSpace.
  induction s as [|c r IH]; simpl; [done|].
  destruct (trimRight r) as [|c' r'] eqn:Hr.
  - destruct (isSpace c) eqn:Hc; simpl; [done|]. by rewrite Hc.
  - exact IH.
Qed.

Lemma startsWithSpace_TrimSpace s : startsWithSpace (TrimSpace s) = false.
Proof. apply startsWithSpace_trimRight, startsWithSpace_trimLeft. Qed.

Lemma endsWithSpace_TrimSpace s : endsWithSpace (TrimSpace s) = false.
Proof. apply endsWithSpace_trimRight. Qed.



Lemma lowerByte_idemp c : lowerByte (lowerByte c) = lowerByte c.
Proof. by destruct c as [[] [] [] [] [] [] [] []]. Qed.

Lemma ToLower_idemp s : ToLower (ToLower s) = ToLower s.
Proof. induction s as [|c r IH]; simpl; [done|]. by rewrite lowerByte_idemp, IH. Qed.

Lemma trimLeft_ToLower s : trimLeft (ToLower s) = ToLower (trimLeft s).
Proof.
  induction s as [|c r IH]; simpl; [done|].
  rewrite isSpace_lowerByte. by destruct (isSpace c).
Qed.

Lemma trimRight_ToLower s : trimRight (ToLower s) = ToLower (trimRight s).
Proof.
  induction s as [|c r IH]; simpl; [done|].
  rewrite IH, isSpace_lowerByte.
  destruct (trimRight r); simpl; [by destruct (isSpace c)|done].
Qed.

Lemma TrimSpace_ToLower s : TrimSpace (ToLower s) = ToLower (TrimSpace s).
Proof. unfold TrimSpace. by rewrite trimLeft_ToLower, trimRight_ToLower. Qed.

Lemma trimLeft_id s : startsWithSpace s = false → trimLeft s = s.
Proof. destruct s as [|c r]; [done|]. unfold startsWithSpace; simpl. by intros ->. Qed.

Lemma trimRight_id s : endsWithSpace s = false → trimRight s = s.
Proof.
  unfold endsWithSpace.
  induction s as [|c r IH]; simpl; [done|].
  destruct r as [|c' r'].
  - simpl. by intros ->.
  - intros H. by rewrite (IH H).
Qed.

Lemma TrimSpace_idemp s : TrimSpace (TrimSpace s) = TrimSpace s.
Proof.
  unfold TrimSpace at 1.
  rewrite trimLeft_id by apply startsWithSpace_TrimSpace.
  apply trimRight_id, endsWithSpace_TrimSpace.
Qed.

(** Normalising twice is normalising once. *)
Lemma normalize_idemp s : normalize (normalize s) = normalize s.
Proof.
  unfold normalize. by rewrite TrimSpace_ToLower, TrimSpace_idemp, ToLower_idemp.
Qed.

End StringFacts.

(** ** The translation tables *)
Section TablesFacts.
Context `{K : Constants}.

Lemma group_fields_neq :
  group_fields_distinct → fieldGroupId ≠ fieldGroupName.
Proof.
  unfold group_fields_distinct. rewrite !NoDup_cons, !not_elem_of_cons.
  naive_solver.
Qed.

Lemma user_fields_neq :
  user_fields_distinct →
  fieldUserUsername ≠ fieldUserPassword ∧ fieldUserUsername ≠ fieldUserName ∧
  fieldUserUsername ≠ fieldUserGroupId ∧ fieldUserPassword ≠ fieldUserName ∧
  fieldUserPassword ≠ fieldUserGroupId ∧ fieldUserName ≠ fieldUserGroupId.
Proof.
  unfold user_fields_distinct. rewrite !NoDup_cons, !not_elem_of_cons.
  naive_solver.
Qed.

Lemma consistent_intro (f2c c2f : gmap string string) (cols : list string) :
  (∀ f c, f2c !! f = Some c ↔ c2f !! c = Some f) →
  NoDup cols →
  (∀ c, c ∈ cols ↔ c ∈ dom c2f) →
  consistent f2c c2f cols.
Proof.
  intros Hinv Hnd Hdom. split_and!; [done | done | |].
  - intros c. by rewrite Hdom, elem_of_dom.
  - intros c. rewrite Hdom, elem_of_dom. unfold is_Some.
    split; intros [f Hf]; exists f; by apply Hinv.
Qed.

Lemma group_tables_consistent :
  group_fields_distinct →
  consistent mapFieldToColNameGroup mapColNameToFieldGroup colsGroup.
Proof.
  intros Hg%group_fields_neq.
  apply consistent_intro;
    unfold mapFieldToColNameGroup, mapColNameToFieldGroup, colsGroup,
      colGroupId, colGroupName.
  - intros f c. rewrite !lookup_insert_Some, !lookup_singleton_Some. naive_solver.
  - repeat constructor; set_solver.
  - intros c. rewrite !dom_insert_L, dom_singleton_L. set_solver.
Qed.

Lemma user_tables_consistent :
  user_fields_distinct →
  consistent mapFieldToColNameUser mapColNameToFieldUser colsUser.
Proof.
  intros Hu%user_fields_neq.
  apply consistent_intro;
    unfold mapFieldToColNameUser, mapColNameToFieldUser, colsUser,
      colUserUsername, colUserPassword, colUserName, colUserGroupId.
  - intros f c. rewrite !lookup_insert_Some, !lookup_singleton_Some. naive_solver.
  - repeat constructor; set_solver.
  - intros c. rewrite !dom_insert_L, dom_singleton_L. set_solver.
Qed.

(** C8. For Group and for User, the field-to-column map and the
    column-to-field map are inverse to each other, and the ordered column
    list holds exactly the columns of the two maps, each once. *)
Theorem tables_mutually_consistent :
  group_fields_distinct → user_fields_distinct →
  consistent mapFieldToColNameGroup mapColNameToFieldGroup colsGroup ∧
  consistent mapFieldToColNameUser mapColNameToFieldUser colsUser.
Proof.
  intros Hg Hu. split.
  - by apply group_tables_consistent.
  - by apply user_tables_consistent.
Qed.

End TablesFacts.

(** ** Bags and business objects *)
Section BagFacts.
Context `{K : Constants}.

Lemma toBo_toGbo (g : Group) :
  fieldGroupId ≠ fieldGroupName →
  GroupDaoSqlite.toBo (GroupDaoSqlite.toGbo (Some g)) = Ret (Some g).
Proof.
  intros Hne. destruct g as [i n].
  unfold GroupDaoSqlite.toBo, GroupDaoSqlite.toGbo, GboSetAttr, GboGetAttrUnsafe,
    NewGenericBo; simpl.
  rewrite lookup_insert_eq, lookup_insert_ne by congruence.
  by rewrite lookup_insert_eq.
Qed.

Lemma toBo_Some (gbo : GenericBo) i n :
  gbo !! fieldGroupId = Some i → gbo !! fieldGroupName = Some n →
  GroupDaoSqlite.toBo (Some gbo) = Ret (Some {| Id := i; Name := n |}).
Proof.
  intros Hi Hn. unfold GroupDaoSqlite.toBo, GboGetAttrUnsafe.
  by rewrite Hi, Hn.
Qed.

(** C9. A Group turned into a bag by [toGbo] and back by [toBo] is the
    same Group; a bag holding the two group fields, turned into a Group
    and back into a bag, has the same two values (and is the same bag when
    it holds nothing else). *)
Theorem group_bag_roundtrip :
  group_fields_distinct →
  (∀ g : Group, GroupDaoSqlite.toBo (GroupDaoSqlite.toGbo (Some g)) = Ret (Some g)) ∧
  (∀ (gbo : GenericBo) i n,
      gbo !! fieldGroupId = Some i → gbo !! fieldGroupName = Some n →
      ∃ g gbo',
        GroupDaoSqlite.toBo (Some gbo) = Ret (Some g) ∧
        GroupDaoSqlite.toGbo (Some g) = Some gbo' ∧
        gbo' !! fieldGroupId = Some i ∧
        gbo' !! fieldGroupName = Some n ∧
        (dom gbo = {[ fieldGroupId; fieldGroupName ]} → gbo' = gbo)).
Proof.
  intros Hne%group_fields_neq. split.
  - intros g. by apply toBo_toGbo.
  - intros gbo i n Hi Hn.
    exists {| Id := i; Name := n |}, (<[fieldGroupName := n]> (<[fieldGroupId := i]> ∅)).
    split_and!.
    + by apply toBo_Some.
    + done.
    + rewrite lookup_insert_ne by congruence. by rewrite lookup_insert_eq.
    + by rewrite lookup_insert_eq.
    + intros Hdom. apply map_eq. intros k.
      destruct (decide (k = fieldGroupName)) as [->|Hk1].
      { by rewrite lookup_insert_eq. }
      rewrite lookup_insert_ne by done.
      destruct (decide (k = fieldGroupId)) as [->|Hk2].
      { by rewrite lookup_insert_eq. }
      rewrite lookup_insert_ne by done. rewrite lookup_empty.
      symmetry. apply not_elem_of_dom. rewrite Hdom. set_solver.
Qed.

End BagFacts.

(** ** [GroupDao.Get] against any engine *)
Section GetContract.
Context `{K : Constants} {St : Type}.


End GetContract.

(** ** The engine model *)
Section EngineFacts.

Lemma matches_singleton (c v : string) (r : gmap string string) :
  Godal.matches {[ c := v ]} r = true ↔ r !! c = Some v.
Proof.
  unfold Godal.matches. rewrite bool_decide_eq_true.
  by rewrite map_Forall_singleton.
Qed.

Lemma matches_singleton_false (c v : string) (r : gmap string string) :
  Godal.matches {[ c := v ]} r = false ↔ r !! c ≠ Some v.
Proof.
  rewrite <-matches_singleton. by destruct (Godal.matches _ r).
Qed.

Lemma find_none_Forall {A} (p : A → bool) (l : list A) :
  find p l = None ↔ Forall (λ x, p x = false) l.
Proof.
  induction l as [|x l IH]; simpl.
  - split; [constructor | done].
  - rewrite Forall_cons. destruct (p x); [naive_solver|]. rewrite IH. naive_solver.
Qed.

Lemma find_app_new {A} (p : A → bool) (l : list A) (x : A) :
  Forall (λ y, p y = false) l →
  find p (l ++ [x]) = if p x then Some x else None.
Proof.
  induction 1 as [|y l Hy _ IH]; simpl; [done|]. by rewrite Hy.
Qed.

Lemma existsb_false_Forall {A} (p : A → bool) (l : list A) :
  existsb p l = false ↔ Forall (λ x, p x = false) l.
Proof.
  induction l as [|x l IH]; simpl.
  - split; [constructor | done].
  - rewrite Forall_cons, orb_false_iff, IH. done.
Qed.

(** [kmap] over an explicit list of entries, when the renaming keeps the
    keys of that list apart. *)
Lemma kmap_list_to_map (f : string → string) (l : list (string * string)) :
  NoDup l.*1 → NoDup (f <$> l.*1) →
  kmap f (list_to_map l : gmap string string)
  = (list_to_map (prod_map f id <$> l) : gmap string string).
Proof.
  intros Hl Hfl. unfold kmap. apply list_to_map_proper.
  - rewrite (map_to_list_to_map l Hl).
    rewrite <-list_fmap_compose.
    replace (fst ∘ prod_map f id) with (f ∘ (fst : string * string → string)).
    + by rewrite list_fmap_compose.
    + done.
  - by rewrite (map_to_list_to_map l Hl).
Qed.

Lemma GdaoCreate_fresh rm tn gbo s t :
  healthy s → Godal.tables s !! tn = Some t →
  Forall (λ r, Godal.sameKey (Godal.pk t) (Godal.ToRow rm tn gbo) r = false) (Godal.rows t) →
  Godal.GdaoCreate rm tn (Some gbo) s
  = ((1, None), Godal.setRows s tn t (Godal.rows t ++ [Godal.ToRow rm tn gbo])).
Proof.
  unfold healthy. intros Hf Ht Hfresh%existsb_false_Forall.
  unfold Godal.GdaoCreate, Godal.transport. rewrite Hf, Ht. simpl.
  by rewrite Hfresh.
Qed.

Lemma GdaoFetchOne_healthy rm tn flt s t :
  healthy s → Godal.tables s !! tn = Some t →
  Godal.GdaoFetchOne rm tn flt s
  = (match find (Godal.matches flt) (Godal.rows t) with
     | None => (None, None)
     | Some row =>
         (Some (Godal.ToBo rm tn
                  (Godal.project (default [] (Godal.ColumnsListMap rm !! tn)) row)),
          None)
     end, s).
Proof.
  unfold healthy. intros Hf Ht.
  unfold Godal.GdaoFetchOne, Godal.transport. rewrite Hf, Ht.
  by destruct (find _ _).
Qed.

(** A bag fetched by a one-column filter comes from a row that has the
    filter's value in that column. *)
Lemma GdaoFetchOne_found rm tn c v s gbo e s' :
  Godal.GdaoFetchOne rm tn {[ c := v ]} s = ((Some gbo, e), s') →
  ∃ row, row !! c = Some v ∧
         gbo = Godal.ToBo rm tn
                 (Godal.project (default [] (Godal.ColumnsListMap rm !! tn)) row).
Proof.
  unfold Godal.GdaoFetchOne.
  destruct (Godal.transport s) as [[e0|] s0]; [done|].
  destruct (Godal.tables s0 !! tn) as [t|]; [|done].
  destruct (find _ _) as [row|] eqn:Hfind; [|done].
  intros [= <- <- <-]. exists row. split; [|done].
  apply find_some in Hfind as [_ Hm]. by apply matches_singleton.
Qed.

(** Every attribute of a fetched bag is the value of a listed column
    that translates to the attribute's name. *)
Lemma ToBo_project_source rm tn cols (row : gmap string string) f x :
  Godal.ToBo rm tn (Godal.project cols row) !! f = Some x →
  ∃ c, c ∈ cols ∧ row !! c = Some x ∧
       Godal.translate (Godal.ColNameToGboFieldTranslator rm !! tn) c = f.
Proof.
  unfold Godal.ToBo, kmap. intros Hl%elem_of_list_to_map_2.
  apply list_elem_of_fmap in Hl as ([c y] & [= -> ->] & Hin).
  apply elem_of_map_to_list in Hin.
  unfold Godal.project in Hin. apply elem_of_list_to_map_2 in Hin.
  apply list_elem_of_omap in Hin as (c0 & Hc0 & Hrow).
  destruct (row !! c0) as [v|] eqn:Hv; simplify_eq/=.
  eauto.
Qed.

(** Reading never changes the tables. *)
Lemma GdaoFetchOne_tables rm tn flt s :
  Godal.tables (Godal.GdaoFetchOne rm tn flt s).2 = Godal.tables s.
Proof.
  unfold Godal.GdaoFetchOne, Godal.transport.
  destruct (Godal.faults s) as [|[e|] rest]; simpl; [|done|].
  - destruct (Godal.tables s !! tn); [destruct (find _ _)|]; done.
  - destruct (Godal.tables s !! tn); [destruct (find _ _)|]; done.
Qed.

End EngineFacts.

(** ** The SQLite group DAO on the engine model *)
Section GroupStore.
Context `{K : Constants}.
Variable tn : string.

Let dao : GroupDaoSqlite.t Godal.SqlConnect := newGroupDaoSqlite tn.

Let rm : Godal.GenericRowMapperSql :=
  {| Godal.GboFieldToColNameTranslator := {[ tn := mapFieldToColNameGroup ]};
     Godal.ColNameToGboFieldTranslator := {[ tn := mapColNameToFieldGroup ]};
     Godal.ColumnsListMap := {[ tn := colsGroup ]} |}.

Lemma ToRow_group i n :
  fieldGroupId ≠ fieldGroupName →
  Godal.ToRow rm tn (<[fieldGroupName := n]> (<[fieldGroupId := i]> ∅)) = groupRow i n.
Proof.
  intros Hne. unfold Godal.ToRow, rm; simpl. rewrite lookup_singleton_eq.
  change (<[fieldGroupName := n]> (<[fieldGroupId := i]> (∅ : gmap string string)))
    with (list_to_map [(fieldGroupName, n); (fieldGroupId, i)] : gmap string string).
  assert (Godal.translate (Some mapFieldToColNameGroup) fieldGroupName = colGroupName) as Hn.
  { unfold Godal.translate, mapFieldToColNameGroup.
    rewrite lookup_insert_ne by congruence. by rewrite lookup_singleton_eq. }
  assert (Godal.translate (Some mapFieldToColNameGroup) fieldGroupId = colGroupId) as Hi.
  { unfold Godal.translate, mapFieldToColNameGroup. by rewrite lookup_insert_eq. }
  rewrite kmap_list_to_map; cbn -[Godal.translate].
  - by rewrite Hn, Hi.
  - repeat constructor; set_solver.
  - rewrite Hn, Hi. unfold colGroupName, colGroupId. repeat constructor; set_solver.
Qed.

Lemma toBo_fetched (r : gmap string string) i n :
  fieldGroupId ≠ fieldGroupName →
  r !! colGroupId = Some i → r !! colGroupName = Some n →
  GroupDaoSqlite.toBo
    (Some (Godal.ToBo rm tn (Godal.project (default [] (Godal.ColumnsListMap rm !! tn)) r)))
  = Ret (Some {| Id := i; Name := n |}).
Proof.
  intros Hne Hi Hn. unfold Godal.ToBo, rm; simpl. rewrite !lookup_singleton_eq; simpl.
  unfold Godal.project, colsGroup; simpl. rewrite Hi, Hn; simpl.
  change (<[colGroupId := i]> (<[colGroupName := n]> (∅ : gmap string string)))
    with (list_to_map [(colGroupId, i); (colGroupName, n)] : gmap string string).
  rewrite kmap_list_to_map; simpl.
  - apply toBo_Some.
    + unfold Godal.translate, mapColNameToFieldGroup. by simplify_map_eq.
    + unfold Godal.translate, mapColNameToFieldGroup. by simplify_map_eq.
  - unfold colGroupName, colGroupId. repeat constructor; set_solver.
  - unfold Godal.translate, mapColNameToFieldGroup. simplify_map_eq.
    repeat constructor; set_solver.
Qed.

Lemma groupRow_key i n : groupRow i n !! colGroupId = Some i.
Proof. unfold groupRow. by simplify_map_eq. Qed.

Lemma groupRow_name i n : groupRow i n !! colGroupName = Some n.
Proof. unfold groupRow. by simplify_map_eq. Qed.

(** [Create] on a sound connection, when the normalised id is new. *)
Lemma Create_fresh id name s t :
  fieldGroupId ≠ fieldGroupName →
  healthy s → Godal.tables s !! tn = Some t → Godal.pk t = colGroupId →
  absent tn colGroupId (normalize id) s →
  GroupDaoSqlite.Create dao id name s
  = ((true, None),
     Godal.setRows s tn t
       (Godal.rows t ++ [groupRow (normalize id) (Strings.TrimSpace name)])).
Proof.
  intros Hne Hh Ht Hpk Habs.
  unfold GroupDaoSqlite.Create, dao, newGroupDaoSqlite; simpl.
  unfold GboSetAttr, NewGenericBo. fold rm.
  pose proof (ToRow_group (normalize id) (Strings.TrimSpace name) Hne) as Hrow.
  unfold normalize in *.
  rewrite (GdaoCreate_fresh rm tn _ s t Hh Ht).
  - by rewrite Hrow.
  - rewrite Hrow, Hpk. unfold absent, rowsOf in Habs. rewrite Ht in Habs.
    eapply Forall_impl; [exact Habs|]. intros r Hr. simpl in Hr.
    unfold Godal.sameKey. rewrite groupRow_key. by apply bool_decide_eq_false.
Qed.

(** [Get] on a sound connection. *)
Lemma Get_healthy id s t :
  healthy s → Godal.tables s !! tn = Some t →
  GroupDaoSqlite.Get dao id s
  = match find (Godal.matches {[ colGroupId := id ]}) (Godal.rows t) with
    | None => Ret ((None, None), s)
    | Some row =>
        bo ← GroupDaoSqlite.toBo
               (Some (Godal.ToBo rm tn
                        (Godal.project (default [] (Godal.ColumnsListMap rm !! tn)) row)));
        Ret ((bo, None), s)
    end.
Proof.
  intros Hh Ht. unfold GroupDaoSqlite.Get, dao, newGroupDaoSqlite; simpl. fold rm.
  rewrite (GdaoFetchOne_healthy rm tn _ s t Hh Ht).
  by destruct (find _ _).
Qed.


Lemma find_new_row (rs : list (gmap string string)) i n :
  Forall (λ r, r !! colGroupId ≠ Some i) rs →
  find (Godal.matches {[ colGroupId := i ]}) (rs ++ [groupRow i n]) = Some (groupRow i n).
Proof.
  intros Habs. rewrite find_app_new.
  - by rewrite (proj2 (matches_singleton _ _ _) (groupRow_key i n)).
  - eapply Forall_impl; [exact Habs|]. intros r Hr. by apply matches_singleton_false.
Qed.





Lemma keysNormalized_absent id s :
  keysNormalized tn s → normalize id ≠ id → absent tn colGroupId id s.
Proof.
  unfold keysNormalized, absent. intros Hinv Hid.
  eapply Forall_impl; [exact Hinv|]. intros r Hr Hrow. simpl in Hr.
  by apply Hid, Hr.
Qed.

Lemma Create_rows id name s r s1 :
  fieldGroupId ≠ fieldGroupName →
  GroupDaoSqlite.Create (newGroupDaoSqlite tn) id name s = (r, s1) →
  rowsOf tn s1 = rowsOf tn s ∨
  rowsOf tn s1 = (rowsOf tn s ++ [groupRow (normalize id) (Strings.TrimSpace name)])%list.
Proof.
  intros Hne.
  unfold GroupDaoSqlite.Create, newGroupDaoSqlite; simpl.
  unfold GboSetAttr, NewGenericBo.
  unfold Godal.GdaoCreate, Godal.transport, rowsOf.
  destruct (Godal.faults s) as [|[e|] rest]; cbn -[Godal.ToRow existsb].
  2: { intros [= <- <-]. by left. }
  all: destruct (Godal.tables s !! tn) as [t|] eqn:Ht;
    [|intros [= <- <-]; simpl; rewrite Ht; by left].
  all: rewrite (ToRow_group _ _ Hne).
  all: destruct (existsb _ _); intros [= <- <-]; simpl;
    [rewrite Ht; by left | rewrite lookup_insert_eq; by right].
Qed.

(** The invariant behind C10's premise: the table stays normalised under
    [Create], and in a normalised table no id that is not in normal form is
    a key. *)
Lemma Create_keeps_keysNormalized id name s r s1 :
  group_fields_distinct →
  keysNormalized tn s →
  GroupDaoSqlite.Create (newGroupDaoSqlite tn) id name s = (r, s1) →
  keysNormalized tn s1.
Proof.
  intros Hne%group_fields_neq Hinv HCreate. unfold keysNormalized in *.
  destruct (Create_rows _ _ _ _ _ Hne HCreate) as [-> | ->]; [done|].
  apply Forall_app. split; [done|].
  constructor; [|constructor].
  intros v. rewrite groupRow_key. intros [= <-]. apply normalize_idemp.
Qed.

End GroupStore.

(** ** The SQLite user DAO on the engine model *)
Section UserStore.
Context `{K : Constants}.
Variable tn : string.

Let dao : UserDaoSqlite.t Godal.SqlConnect := newUserDaoSqlite tn.

Let rm : Godal.GenericRowMapperSql :=
  {| Godal.GboFieldToColNameTranslator := {[ tn := mapFieldToColNameUser ]};
     Godal.ColNameToGboFieldTranslator := {[ tn := mapColNameToFieldUser ]};
     Godal.ColumnsListMap := {[ tn := colsUser ]} |}.

Hypothesis Hfields : user_fields_distinct.

Lemma translate_user_fields :
  Godal.translate (Some mapFieldToColNameUser) fieldUserUsername = colUserUsername ∧
  Godal.translate (Some mapFieldToColNameUser) fieldUserPassword = colUserPassword ∧
  Godal.translate (Some mapFieldToColNameUser) fieldUserName = colUserName ∧
  Godal.translate (Some mapFieldToColNameUser) fieldUserGroupId = colUserGroupId.
Proof.
  destruct (user_fields_neq Hfields) as (?&?&?&?&?&?).
  unfold Godal.translate, mapFieldToColNameUser. split_and!; by simplify_map_eq.
Qed.

Lemma ToRow_user u p n g :
  Godal.ToRow rm tn
    (<[fieldUserGroupId := g]> (<[fieldUserName := n]>
       (<[fieldUserPassword := p]> (<[fieldUserUsername := u]> ∅))))
  = userRow u p n g.
Proof.
  destruct translate_user_fields as (Hu & Hp & Hn & Hg).
  unfold Godal.ToRow, rm; simpl. rewrite lookup_singleton_eq.
  change (<[fieldUserGroupId := g]> (<[fieldUserName := n]>
            (<[fieldUserPassword := p]> (<[fieldUserUsername := u]>
               (∅ : gmap string string)))))
    with (list_to_map [(fieldUserGroupId, g); (fieldUserName, n);
                       (fieldUserPassword, p); (fieldUserUsername, u)]
          : gmap string string).
  rewrite kmap_list_to_map; cbn -[Godal.translate].
  - by rewrite Hu, Hp, Hn, Hg.
  - destruct (user_fields_neq Hfields) as (?&?&?&?&?&?).
    repeat constructor; set_solver.
  - rewrite Hu, Hp, Hn, Hg.
    unfold colUserUsername, colUserPassword, colUserName, colUserGroupId.
    repeat constructor; set_solver.
Qed.

Lemma UserDao_toBo_Some (gbo : GenericBo) u p n g :
  gbo !! fieldUserUsername = Some u → gbo !! fieldUserPassword = Some p →
  gbo !! fieldUserName = Some n → gbo !! fieldUserGroupId = Some g →
  UserDaoSqlite.toBo (Some gbo)
  = Ret (Some {| Username := u; Password := p; UName := n; GroupId := g |}).
Proof.
  intros Hu Hp Hn Hg. unfold UserDaoSqlite.toBo, GboGetAttrUnsafe.
  by rewrite Hu, Hp, Hn, Hg.
Qed.

Lemma UserDao_toBo_fetched (r : gmap string string) u p n g :
  r !! colUserUsername = Some u → r !! colUserPassword = Some p →
  r !! colUserName = Some n → r !! colUserGroupId = Some g →
  UserDaoSqlite.toBo
    (Some (Godal.ToBo rm tn (Godal.project (default [] (Godal.ColumnsListMap rm !! tn)) r)))
  = Ret (Some {| Username := u; Password := p; UName := n; GroupId := g |}).
Proof.
  intros Hu Hp Hn Hg.
  destruct (user_fields_neq Hfields) as (?&?&?&?&?&?).
  unfold Godal.ToBo, rm; simpl. rewrite !lookup_singleton_eq; simpl.
  unfold Godal.project, colsUser; simpl. rewrite Hu, Hp, Hn, Hg; simpl.
  change (<[colUserUsername := u]> (<[colUserPassword := p]>
            (<[colUserName := n]> (<[colUserGroupId := g]> (∅ : gmap string string)))))
    with (list_to_map [(colUserUsername, u); (colUserPassword, p);
                       (colUserName, n); (colUserGroupId, g)] : gmap string string).
  rewrite kmap_list_to_map; simpl.
  - apply UserDao_toBo_Some;
      unfold Godal.translate, mapColNameToFieldUser; by simplify_map_eq.
  - unfold colUserUsername, colUserPassword, colUserName, colUserGroupId.
    repeat constructor; set_solver.
  - unfold Godal.translate, mapColNameToFieldUser. simplify_map_eq. exact Hfields.
Qed.

Lemma userRow_lookups u p n g :
  userRow u p n g !! colUserUsername = Some u ∧
  userRow u p n g !! colUserPassword = Some p ∧
  userRow u p n g !! colUserName = Some n ∧
  userRow u p n g !! colUserGroupId = Some g.
Proof. unfold userRow. split_and!; by simplify_map_eq. Qed.

Lemma UserDao_Create_fresh username pwd name gid s t :
  healthy s → Godal.tables s !! tn = Some t → Godal.pk t = colUserUsername →
  absent tn colUserUsername (normalize username) s →
  UserDaoSqlite.Create dao username pwd name gid s
  = ((true, None),
     Godal.setRows s tn t
       (Godal.rows t ++ [userRow (normalize username) pwd name (normalize gid)])).
Proof.
  intros Hh Ht Hpk Habs.
  unfold UserDaoSqlite.Create, dao, newUserDaoSqlite; simpl.
  unfold GboSetAttr, NewGenericBo. fold rm.
  pose proof (ToRow_user (normalize username) pwd name (normalize gid)) as Hrow.
  unfold normalize in *.
  rewrite (GdaoCreate_fresh rm tn _ s t Hh Ht).
  - by rewrite Hrow.
  - rewrite Hrow, Hpk. unfold absent, rowsOf in Habs. rewrite Ht in Habs.
    eapply Forall_impl; [exact Habs|]. intros r Hr. simpl in Hr.
    unfold Godal.sameKey.
    rewrite (proj1 (userRow_lookups _ _ _ _)). by apply bool_decide_eq_false.
Qed.

Lemma UserDao_Get_healthy username s t :
  healthy s → Godal.tables s !! tn = Some t →
  UserDaoSqlite.Get dao username s
  = match find (Godal.matches {[ colUserUsername := username ]}) (Godal.rows t) with
    | None => Ret ((None, None), s)
    | Some row =>
        bo ← UserDaoSqlite.toBo
               (Some (Godal.ToBo rm tn
                        (Godal.project (default [] (Godal.ColumnsListMap rm !! tn)) row)));
        Ret ((bo, None), s)
    end.
Proof.
  intros Hh Ht. unfold UserDaoSqlite.Get, dao, newUserDaoSqlite; simpl. fold rm.
  rewrite (GdaoFetchOne_healthy rm tn _ s t Hh Ht).
  by destruct (find _ _).
Qed.

End UserStore.

(** ** The reconciler against any pair of DAOs *)

Ltac run_step :=
  match goal with
  | |- context [match ?x with Ret _ => _ | Panic _ => _ end] =>
      let E := fresh "Hcall" in
      destruct x as [[? ?]|?] eqn:E; simpl in *
  | |- context [match ?x with _ => _ end] => is_var x; destruct x; simpl in *
  | |- context [negb ?x] => is_var x; destruct x; simpl in *
  end.

Ltac no_such_event H :=
  repeat (apply Exists_cons in H as [H|H]; [simpl in H; try discriminate|]);
  try (by apply Exists_nil in H).

Section Reconciler.
Context `{K : Constants} {St : Type} (h : Impl St).

(** C1, as the code has it. A run of the reconciler in which a creation
    call returns an error ends in a panic, so a run that returns normally
    saw no creation error; a creation call that returns [false] with a nil
    error is followed by the "Cannot create group" log line and the
    reconciler goes on with the admin user. *)
Theorem initDaos_create_error_is_fatal (s : St) :
  let r := run h initDaos s in
  (Exists (λ ev, createErrored ev = true) r.1 → ∃ msg, r.2 = Panic msg) ∧
  (∀ x, r.2 = Ret x → Forall (λ ev, createErrored ev = false) r.1) ∧
  (∀ s1 s2 s3 s4,
     h (GroupDao_Get SystemGroupId) s = Ret ((None, None), s1) →
     h (log_Printf ("System group [" +:+ SystemGroupId +:+ "] not found, creating one...")) s1
     = Ret (tt, s2) →
     h (GroupDao_Create SystemGroupId "System User Group") s2 = Ret ((false, None), s3) →
     h (log_Printf ("Cannot create group [" +:+ SystemGroupId +:+ "]")) s3 = Ret (tt, s4) →
     evCall <$> r.1
     = ([GroupDao_Get SystemGroupId;
         log_Printf ("System group [" +:+ SystemGroupId +:+ "] not found, creating one...");
         GroupDao_Create SystemGroupId "System User Group";
         log_Printf ("Cannot create group [" +:+ SystemGroupId +:+ "]")]
        ++ (evCall <$> (run h ensureAdminUser s4).1))%list ∧
     r.2 = (run h ensureAdminUser s4).2).
Proof.
  cbv zeta. split_and!.
  - unfold initDaos; simpl. repeat run_step.
    all: intros Hex; try (eexists; reflexivity).
    all: no_such_event Hex.
  - unfold initDaos; simpl. repeat run_step.
    all: intros x Hx; try discriminate.
    all: repeat constructor.
  - intros s1 s2 s3 s4 Hget Hlog Hcreate Hlog2.
    unfold initDaos, ensureAdminUser; simpl.
    rewrite Hget; simpl. rewrite Hlog; simpl. rewrite Hcreate; simpl.
    rewrite Hlog2; simpl.
    destruct (h (UserDao_Get AdminUserUsernname) s4) as [[[ou [e|]] s5]|msg]; simpl;
      [done| |done].
    destruct ou as [u|]; simpl; [done|].
    repeat run_step; done.
Qed.

(** When both fetches find their entity, the reconciler makes those two
    calls and nothing else. *)
Lemma initDaos_both_present (s s1 s2 : St) g u :
  h (GroupDao_Get SystemGroupId) s = Ret ((Some g, None), s1) →
  h (UserDao_Get AdminUserUsernname) s1 = Ret ((Some u, None), s2) →
  run h initDaos s
  = ([Answered (GroupDao_Get SystemGroupId) (Some g, None);
      Answered (UserDao_Get AdminUserUsernname) (Some u, None)],
     Ret (tt, s2)).
Proof.
  intros Hg Hu. unfold initDaos; simpl. rewrite Hg; simpl. by rewrite Hu.
Qed.

End Reconciler.

(** C1, as the claim has it, fails: against DAOs whose [Create] returns
    [false] with a nil error, neither entity is created, the reconciler
    logs "Cannot create ..." twice and returns normally. *)
Lemma initDaos_survives_refused_creation :
  let r := run refusingImpl (@initDaos sample) tt in
  r.2 = Ret (tt, tt) ∧
  Exists (λ ev, createUnsuccessful ev = true) r.1 ∧
  evCall <$> r.1
  = [GroupDao_Get "administrator";
     log_Printf "System group [administrator] not found, creating one...";
     GroupDao_Create "administrator" "System User Group";
     log_Printf "Cannot create group [administrator]";
     UserDao_Get "admin";
     log_Printf "Admin user [admin] not found, creating one with password [s3cr3t]...";
     UserDao_Create "admin" "md5(admin.s3cr3t)" "Adminstrator" "administrator";
     log_Printf "Cannot create user [admin]"].
Proof.
  vm_compute. split_and!; [done| |done].
  do 2 apply Exists_cons_tl. by apply Exists_cons_hd.
Qed.

(** ** Runs of sequenced programs *)
Section Halves.
Context `{K : Constants} {St : Type} (h : Impl St).

Lemma run_pbind {A B} (p : Prog A) (f : A → Prog B) (s : St) :
  run h (pbind p f) s
  = match run h p s with
    | (evs, Ret (a, s')) => let '(evs', r) := run h (f a) s' in ((evs ++ evs')%list, r)
    | (evs, Panic msg) => (evs, Panic msg)
    end.
Proof.
  revert s. induction p as [a|msg|c k IH]; intros s; simpl.
  - by destruct (run h (f a) s).
  - done.
  - destruct (h c s) as [[x s']|msg]; [|done].
    rewrite IH. destruct (run h (k x) s') as [evs [[a s'']|msg]]; [|done].
    by destruct (run h (f a) s'').
Qed.

Lemma initDaos_halves (s : St) :
  run h initDaos s = run h (ensureSystemGroup ≫= λ _, ensureAdminUser) s.
Proof.
  unfold initDaos, ensureSystemGroup; simpl.
  destruct (h (GroupDao_Get SystemGroupId) s) as [[[sg [e|]] s1]|msg]; simpl; [done| |done].
  destruct sg as [g|]; simpl; [done|].
  destruct (h (log_Printf _) s1) as [[[] s2]|msg]; simpl; [|done].
  destruct (h (GroupDao_Create _ _) s2) as [[[b [e|]] s3]|msg]; simpl; [done| |done].
  destruct b; simpl; [done|].
  destruct (h (log_Printf _) s3) as [[[] s4]|msg]; simpl; done.
Qed.

End Halves.

(** ** The guards on the protected entities, against any pair of DAOs *)
Section Guards.
Context `{K : Constants} {St : Type} (h : Impl St).

Lemma checkCpDeleteGroup_cases (c : Context) (s : St) :
  let r := run h (checkCpDeleteGroup c) s in
  Forall (λ ev, isWrite (evCall ev) = false) r.1 ∧
  ∀ og err s', r.2 = Ret ((og, err), s') →
    (is_Some err ∧ og = None) ∨ (err = None ∧ ∃ g, og = Some g ∧ Id g ≠ SystemGroupId).
Proof.
  unfold checkCpDeleteGroup. destruct (getCurrentUser c) as [cu [e|]]; simpl.
  { split; [constructor|]. intros og err s' [= <- <- <-]. left. eauto. }
  case_bool_decide; simpl.
  { split; [constructor|]. intros og err s' [= <- <- <-]. left. eauto. }
  repeat run_step; try case_bool_decide; simpl.
  all: split; [repeat constructor|]; intros og err s'; try done.
  all: intros [= <- <- <-]; eauto.
Qed.

(** C6. The check of the delete-group flow never lets the system group
    through: a nil error comes with a group whose id is not
    [SystemGroupId], a fetched group with that id is answered by the
    "delete system group" error, and so neither handler of the flow
    calls [groupDao.Delete] on a group with the system group's id. *)
Theorem system_group_never_deleted (c : Context) (s : St) :
  (∀ og s', (run h (checkCpDeleteGroup c) s).2 = Ret ((og, None), s') →
     ∃ g, og = Some g ∧ Id g ≠ SystemGroupId) ∧
  (∀ u g s1,
     getCurrentUser c = (Some u, None) → GroupId u = SystemGroupId →
     h (GroupDao_Get (QueryParam c "id")) s = Ret ((Some g, None), s1) →
     Id g = SystemGroupId →
     run h (checkCpDeleteGroup c) s
     = ([Answered (GroupDao_Get (QueryParam c "id")) (Some g, None)],
        Ret ((None, Some (errors_New (Text1 "error_delete_system_group" (QueryParam c "id")))),
             s1))) ∧
  Forall (λ ev, deletesSystemGroup (evCall ev) = false)
    (run h (actionCpDeleteGroupSubmit c) s).1 ∧
  Forall (λ ev, isWrite (evCall ev) = false) (run h (actionCpDeleteGroup c) s).1.
Proof.
  split_and!.
  - intros og s' Hr.
    destruct (checkCpDeleteGroup_cases c s) as [_ Hc].
    destruct (Hc og None s' Hr) as [[[? [=]] _]|[_ ?]]; done.
  - intros u g s1 Hcu Hadmin Hget Hsys. unfold checkCpDeleteGroup.
    rewrite Hcu; simpl. rewrite Hadmin.
    rewrite bool_decide_eq_false_2 by naive_solver. simpl.
    rewrite Hget; simpl. by rewrite bool_decide_eq_true_2.
  - unfold actionCpDeleteGroupSubmit, checkCpDeleteGroup.
    destruct (getCurrentUser c) as [cu [e|]]; simpl.
    { repeat run_step; repeat constructor. }
    case_bool_decide; simpl.
    { repeat run_step; repeat constructor. }
    repeat run_step; try case_bool_decide; simpl; repeat run_step.
    all: repeat constructor; simpl.
    all: by apply bool_decide_eq_false_2.
  - unfold actionCpDeleteGroup, checkCpDeleteGroup.
    destruct (getCurrentUser c) as [cu [e|]]; simpl.
    { repeat run_step; repeat constructor. }
    case_bool_decide; simpl.
    { repeat run_step; repeat constructor. }
    repeat run_step; try case_bool_decide; simpl; repeat run_step.
    all: repeat constructor.
Qed.

(** C7. A change-password request of the admin user is answered with an
    error and no call at all, and the handler never updates a user named
    [AdminUserUsernname]; a delete-user request that targets
    [AdminUserUsernname] is rejected by the check and ends in a redirect
    without any write; so, with a [userDao.Get] that returns the user it
    was asked for, the flow never calls [userDao.Delete] on the admin
    user. *)
Theorem admin_user_is_restricted (c : Context) (s : St) :
  (∀ u, getCurrentUser c = (Some u, None) → Username u = AdminUserUsernname →
     run h (actionCpChangePasswordSubmit c) s
     = ([], Ret (Render StatusOK (namespace +:+ ":layout:cp_profile")
                   [("active", DString "profile");
                    ("error", DString "Cannot change system admin account's password")],
                 s))) ∧
  Forall (λ ev, updatesAdminUser (evCall ev) = false)
    (run h (actionCpChangePasswordSubmit c) s).1 ∧
  (QueryParam c "u" = AdminUserUsernname →
     (∀ ou err s', (run h (checkCpDeleteUser c) s).2 = Ret ((ou, err), s') →
        ou = None ∧ is_Some err) ∧
     Forall (λ ev, isWrite (evCall ev) = false) (run h (actionCpDeleteUserSubmit c) s).1 ∧
     (∀ resp s', (run h (actionCpDeleteUserSubmit c) s).2 = Ret (resp, s') →
        ∃ url, resp = Redirect StatusFound url)) ∧
  (getIsKeyed h →
     Forall (λ ev, deletesAdminUser (evCall ev) = false)
       (run h (actionCpDeleteUserSubmit c) s).1 ∧
     Forall (λ ev, isWrite (evCall ev) = false) (run h (actionCpDeleteUser c) s).1).
Proof.
  split_and!.
  - intros u Hcu Hadmin. unfold actionCpChangePasswordSubmit.
    rewrite Hcu; simpl. by rewrite bool_decide_eq_true_2.
  - unfold actionCpChangePasswordSubmit.
    destruct (getCurrentUser c) as [[u|] [e|]]; simpl; try by constructor.
    case_bool_decide as Hadmin; simpl; [by constructor|].
    destruct (FormParams c) as [formData [e|]]; simpl; [by constructor|].
    repeat (case_bool_decide; simpl; try by constructor).
    repeat run_step; repeat constructor; simpl.
    all: by apply bool_decide_eq_false_2.
  - intros Htarget. unfold actionCpDeleteUserSubmit, checkCpDeleteUser.
    rewrite Htarget.
    destruct (getCurrentUser c) as [cu [e|]]; simpl.
    { split_and!; [intros ?? ? [= <- <- <-]; eauto | |];
        repeat run_step; repeat constructor; intros ?? [=]; eauto. }
    case_bool_decide; simpl.
    { split_and!; [intros ?? ? [= <- <- <-]; eauto | |];
        repeat run_step; repeat constructor; intros ?? [=]; eauto. }
    split_and!.
    + repeat run_step; try rewrite bool_decide_eq_true_2 by done; simpl;
        intros ou err s'; try done; intros [= <- <- <-]; eauto.
    + repeat run_step; try rewrite bool_decide_eq_true_2 by done; simpl;
        repeat run_step; repeat constructor.
    + repeat run_step; try rewrite bool_decide_eq_true_2 by done; simpl;
        repeat run_step; intros resp s'; try done; intros [= <- <-]; eauto.
  - intros Hkeyed. split.
    + unfold actionCpDeleteUserSubmit, checkCpDeleteUser.
      destruct (getCurrentUser c) as [cu [e|]]; simpl.
      { repeat run_step; repeat constructor. }
      case_bool_decide; simpl.
      { repeat run_step; repeat constructor. }
      destruct (h (UserDao_Get (QueryParam c "u")) s) as [[[[u|] [e|]] s1]|msg] eqn:Hget;
        simpl.
      all: try (repeat run_step; repeat constructor; fail).
      apply Hkeyed in Hget.
      case_bool_decide as Hq; simpl; repeat run_step; repeat constructor; simpl.
      all: apply bool_decide_eq_false_2; congruence.
    + unfold actionCpDeleteUser, checkCpDeleteUser.
      destruct (getCurrentUser c) as [cu [e|]]; simpl.
      { repeat run_step; repeat constructor. }
      case_bool_decide; simpl.
      { repeat run_step; repeat constructor. }
      repeat run_step; try case_bool_decide; simpl; repeat run_step.
      all: repeat constructor.
Qed.

End Guards.
(** ** The reconciler and the guards on the SQLite DAOs *)
Section SqliteWorld.
Context `{K : Constants}.

Lemma withSqlc_id w : withSqlc w (sqlc w) = w.
Proof. by destruct w. Qed.

Lemma UserDao_Get_keyed tn k s u err s' :
  user_fields_distinct →
  UserDaoSqlite.Get (newUserDaoSqlite tn) k s = Ret ((Some u, err), s') →
  Username u = k.
Proof.
  intros Hf. unfold UserDaoSqlite.Get, newUserDaoSqlite; simpl.
  destruct (Godal.GdaoFetchOne _ _ _ s) as [[gbo e] s1] eqn:Hfetch.
  destruct e as [e|]; [done|].
  destruct gbo as [gbo|]; simpl; [|done].
  apply GdaoFetchOne_found in Hfetch as (row & Hrow & ->).
  unfold UserDaoSqlite.toBo, GboGetAttrUnsafe.
  destruct (Godal.ToBo _ _ _ !! fieldUserUsername) as [x|] eqn:Hx; simpl; [|done].
  apply ToBo_project_source in Hx as (c & Hc & Hrc & Htr).
  cbn [Godal.ColumnsListMap Godal.ColNameToGboFieldTranslator] in Hc, Htr.
  rewrite lookup_singleton_eq in Hc. rewrite lookup_singleton_eq in Htr.
  simpl in Hc.
  assert (x = k) as ->.
  { destruct (user_fields_neq Hf) as (?&?&?&?&?&?).
    unfold colsUser in Hc. rewrite !elem_of_cons, elem_of_nil in Hc.
    unfold Godal.translate, mapColNameToFieldUser in Htr.
    destruct Hc as [->|[->|[->|[->|[]]]]]; simplify_map_eq; congruence. }
  repeat (match goal with
          | |- context [assertString ?o] => destruct o; simpl; [|done]
          end).
  by intros [= <- _ _].
Qed.

Lemma sqliteImpl_getIsKeyed : user_fields_distinct → getIsKeyed sqliteImpl.
Proof.
  intros Hf k w u err w' H. simpl in H.
  destruct (UserDaoSqlite.Get userDao k (sqlc w)) as [[[ou e] s1]|msg] eqn:Hget;
    simpl in H; [|done].
  unfold liftDao in H; simpl in H. injection H as -> -> _.
  by eapply UserDao_Get_keyed.
Qed.

(** *** Single calls on a sound connection *)

Lemma sqlite_GroupGet_absent w t id :
  healthy (sqlc w) → Godal.tables (sqlc w) !! sqliteTableGroup = Some t →
  Forall (λ r, r !! colGroupId ≠ Some id) (Godal.rows t) →
  sqliteImpl (GroupDao_Get id) w = Ret ((None, None), w).
Proof.
  intros Hh Ht Habs. cbn [sqliteImpl]. unfold groupDao.
  rewrite (Get_healthy _ _ _ _ Hh Ht).
  replace (find _ _) with (@None (gmap string string)).
  - simpl. unfold liftDao; simpl. by rewrite withSqlc_id.
  - symmetry. apply find_none_Forall.
    eapply Forall_impl; [exact Habs|]. intros r Hr. by apply matches_singleton_false.
Qed.

Lemma sqlite_GroupGet_last w t (rs : list (gmap string string)) i n :
  group_fields_distinct →
  healthy (sqlc w) → Godal.tables (sqlc w) !! sqliteTableGroup = Some t →
  Godal.rows t = (rs ++ [groupRow i n])%list →
  Forall (λ r, r !! colGroupId ≠ Some i) rs →
  sqliteImpl (GroupDao_Get i) w = Ret ((Some {| Id := i; Name := n |}, None), w).
Proof.
  intros Hne%group_fields_neq Hh Ht Hrows Habs. cbn [sqliteImpl]. unfold groupDao.
  rewrite (Get_healthy _ _ _ _ Hh Ht), Hrows, find_new_row by done.
  rewrite (toBo_fetched _ _ _ _ Hne (groupRow_key _ _) (groupRow_name _ _)).
  simpl. unfold liftDao; simpl. by rewrite withSqlc_id.
Qed.

Lemma sqlite_GroupCreate_fresh w t id name :
  group_fields_distinct →
  healthy (sqlc w) → Godal.tables (sqlc w) !! sqliteTableGroup = Some t →
  Godal.pk t = colGroupId →
  Forall (λ r, r !! colGroupId ≠ Some (normalize id)) (Godal.rows t) →
  sqliteImpl (GroupDao_Create id name) w
  = Ret ((true, None),
         withSqlc w (Godal.setRows (sqlc w) sqliteTableGroup t
                       (Godal.rows t ++ [groupRow (normalize id) (Strings.TrimSpace name)]))).
Proof.
  intros Hne%group_fields_neq Hh Ht Hpk Habs. cbn [sqliteImpl]. unfold groupDao.
  rewrite (Create_fresh _ _ _ _ _ Hne Hh Ht Hpk); [done|].
  unfold absent, rowsOf. by rewrite Ht.
Qed.

Lemma find_new_user_row (rs : list (gmap string string)) u p n g :
  Forall (λ r, r !! colUserUsername ≠ Some u) rs →
  find (Godal.matches {[ colUserUsername := u ]}) (rs ++ [userRow u p n g])
  = Some (userRow u p n g).
Proof.
  intros Habs. rewrite find_app_new.
  - by rewrite (proj2 (matches_singleton _ _ _) (proj1 (userRow_lookups u p n g))).
  - eapply Forall_impl; [exact Habs|]. intros r Hr. by apply matches_singleton_false.
Qed.

Lemma sqlite_UserGet_absent w t username :
  healthy (sqlc w) → Godal.tables (sqlc w) !! sqliteTableUser = Some t →
  Forall (λ r, r !! colUserUsername ≠ Some username) (Godal.rows t) →
  sqliteImpl (UserDao_Get username) w = Ret ((None, None), w).
Proof.
  intros Hh Ht Habs. cbn [sqliteImpl]. unfold userDao.
  rewrite (UserDao_Get_healthy _ _ _ _ Hh Ht).
  replace (find _ _) with (@None (gmap string string)).
  - simpl. unfold liftDao; simpl. by rewrite withSqlc_id.
  - symmetry. apply find_none_Forall.
    eapply Forall_impl; [exact Habs|]. intros r Hr. by apply matches_singleton_false.
Qed.

Lemma sqlite_UserGet_last w t (rs : list (gmap string string)) u p n g :
  user_fields_distinct →
  healthy (sqlc w) → Godal.tables (sqlc w) !! sqliteTableUser = Some t →
  Godal.rows t = (rs ++ [userRow u p n g])%list →
  Forall (λ r, r !! colUserUsername ≠ Some u) rs →
  sqliteImpl (UserDao_Get u) w
  = Ret ((Some {| Username := u; Password := p; UName := n; GroupId := g |}, None), w).
Proof.
  intros Hf Hh Ht Hrows Habs. cbn [sqliteImpl]. unfold userDao.
  rewrite (UserDao_Get_healthy _ _ _ _ Hh Ht), Hrows, find_new_user_row by done.
  destruct (userRow_lookups u p n g) as (H1 & H2 & H3 & H4).
  rewrite (UserDao_toBo_fetched _ Hf _ _ _ _ _ H1 H2 H3 H4).
  simpl. unfold liftDao; simpl. by rewrite withSqlc_id.
Qed.

Lemma sqlite_UserCreate_fresh w t username pwd name gid :
  user_fields_distinct →
  healthy (sqlc w) → Godal.tables (sqlc w) !! sqliteTableUser = Some t →
  Godal.pk t = colUserUsername →
  Forall (λ r, r !! colUserUsername ≠ Some (normalize username)) (Godal.rows t) →
  sqliteImpl (UserDao_Create username pwd name gid) w
  = Ret ((true, None),
         withSqlc w (Godal.setRows (sqlc w) sqliteTableUser t
                       (Godal.rows t
                        ++ [userRow (normalize username) pwd name (normalize gid)]))).
Proof.
  intros Hf Hh Ht Hpk Habs. cbn [sqliteImpl]. unfold userDao.
  rewrite (UserDao_Create_fresh _ Hf _ _ _ _ _ _ Hh Ht Hpk); [done|].
  unfold absent, rowsOf. by rewrite Ht.
Qed.

(** *** The reconciler on a database that has neither entity *)

Lemma initDaos_creates_both w tG tU :
  declarations_sound → ids_normalized → healthy (sqlc w) →
  Godal.tables (sqlc w) !! sqliteTableGroup = Some tG → Godal.pk tG = colGroupId →
  Godal.tables (sqlc w) !! sqliteTableUser = Some tU → Godal.pk tU = colUserUsername →
  Forall (λ r, r !! colGroupId ≠ Some SystemGroupId) (Godal.rows tG) →
  Forall (λ r, r !! colUserUsername ≠ Some AdminUserUsernname) (Godal.rows tU) →
  ∃ evs w',
    run sqliteImpl initDaos w = (evs, Ret (tt, w')) ∧
    Forall (λ ev, createUnsuccessful ev = false) evs ∧
    healthy (sqlc w') ∧
    Godal.tables (sqlc w') !! sqliteTableGroup
    = Some {| Godal.pk := colGroupId;
              Godal.rows := Godal.rows tG ++ [groupRow SystemGroupId "System User Group"] |} ∧
    Godal.tables (sqlc w') !! sqliteTableUser
    = Some {| Godal.pk := colUserUsername;
              Godal.rows := Godal.rows tU
                            ++ [userRow AdminUserUsernname
                                  (encryptPassword AdminUserUsernname "s3cr3t")
                                  AdminUserName SystemGroupId] |}.
Proof.
  intros (Hg & Hu & Htn) (Hsg & Hau) Hh HtG HpkG HtU HpkU HabsG HabsU.
  assert (Strings.TrimSpace "System User Group" = "System User Group") as Hname
    by reflexivity.
  set (w1 := {| sqlc := sqlc w;
                logged := logged w ++ ["System group [" +:+ SystemGroupId
                                       +:+ "] not found, creating one..."];
                flashes := flashes w; entropy := entropy w |}).
  set (w2 := withSqlc w1 (Godal.setRows (sqlc w1) sqliteTableGroup tG
               (Godal.rows tG ++ [groupRow SystemGroupId "System User Group"]))).
  set (w3 := {| sqlc := sqlc w2;
                logged := logged w2 ++ ["Admin user [" +:+ AdminUserUsernname
                                        +:+ "] not found, creating one with password ["
                                        +:+ "s3cr3t" +:+ "]..."];
                flashes := flashes w2; entropy := entropy w2 |}).
  set (w4 := withSqlc w3 (Godal.setRows (sqlc w3) sqliteTableUser tU
               (Godal.rows tU ++ [userRow AdminUserUsernname
                                    (encryptPassword AdminUserUsernname "s3cr3t")
                                    AdminUserName SystemGroupId]))).
  assert (sqliteImpl (GroupDao_Create SystemGroupId "System User Group") w1
          = Ret ((true, None), w2)) as HcreateG.
  { rewrite (sqlite_GroupCreate_fresh w1 tG) by (rewrite ?Hsg; done).
    unfold w2. by rewrite Hsg, Hname. }
  assert (Godal.tables (sqlc w2) !! sqliteTableUser = Some tU) as HtU2.
  { unfold w2, w1; simpl. by rewrite lookup_insert_ne. }
  assert (sqliteImpl (UserDao_Get AdminUserUsernname) w2 = Ret ((None, None), w2))
    as HgetU by (by apply (sqlite_UserGet_absent w2 tU)).
  assert (sqliteImpl (UserDao_Create AdminUserUsernname
                        (encryptPassword AdminUserUsernname "s3cr3t")
                        AdminUserName SystemGroupId) w3
          = Ret ((true, None), w4)) as HcreateU.
  { rewrite (sqlite_UserCreate_fresh w3 tU) by (rewrite ?Hau; done).
    unfold w4. by rewrite Hsg, Hau. }
  exists [Answered (GroupDao_Get SystemGroupId) (None, None);
          Answered (log_Printf ("System group [" +:+ SystemGroupId
                                +:+ "] not found, creating one...")) tt;
          Answered (GroupDao_Create SystemGroupId "System User Group") (true, None);
          Answered (UserDao_Get AdminUserUsernname) (None, None);
          Answered (log_Printf ("Admin user [" +:+ AdminUserUsernname
                                +:+ "] not found, creating one with password ["
                                +:+ "s3cr3t" +:+ "]...")) tt;
          Answered (UserDao_Create AdminUserUsernname
                      (encryptPassword AdminUserUsernname "s3cr3t")
                      AdminUserName SystemGroupId) (true, None)], w4.
  split_and!.
  - unfold initDaos. cbn [run mbind Prog_bind pbind call].
    rewrite (sqlite_GroupGet_absent _ _ _ Hh HtG HabsG).
    cbn [run mbind Prog_bind pbind call].
    change (sqliteImpl (log_Printf _) w) with (@Ret (unit * World) (tt, w1)).
    cbn [run mbind Prog_bind pbind call].
    rewrite HcreateG. cbn [run mbind Prog_bind pbind call negb].
    rewrite HgetU. cbn [run mbind Prog_bind pbind call].
    change (sqliteImpl (log_Printf _) w2) with (@Ret (unit * World) (tt, w3)).
    cbn [run mbind Prog_bind pbind call].
    rewrite HcreateU. cbn [run mbind Prog_bind pbind call negb]. done.
  - repeat constructor.
  - exact Hh.
  - unfold w4, w3, w2, w1; simpl. rewrite lookup_insert_ne by done.
    rewrite lookup_insert_eq. by rewrite HpkG.
  - unfold w4, w3, w2, w1; simpl. rewrite lookup_insert_eq. by rewrite HpkU.
Qed.

(** *** Reading leaves the tables alone *)

Lemma GdaoFetchOne_Some_table rm tn flt s gbo e s' :
  Godal.GdaoFetchOne rm tn flt s = ((Some gbo, e), s') →
  is_Some (Godal.tables s !! tn).
Proof.
  unfold Godal.GdaoFetchOne, Godal.transport.
  destruct (Godal.faults s) as [|[e0|] rest]; simpl; [|done|].
  - destruct (Godal.tables s !! tn); [eauto | done].
  - destruct (Godal.tables s !! tn); [eauto | done].
Qed.

Lemma GdaoFetchOne_tables_eq rm tn flt s r s' :
  Godal.GdaoFetchOne rm tn flt s = (r, s') → Godal.tables s' = Godal.tables s.
Proof.
  intros H. rewrite <-(GdaoFetchOne_tables rm tn flt s). by rewrite H.
Qed.

Lemma sqlite_GroupGet_inv w id g e w1 :
  sqliteImpl (GroupDao_Get id) w = Ret ((Some g, e), w1) →
  is_Some (Godal.tables (sqlc w) !! sqliteTableGroup) ∧
  Godal.tables (sqlc w1) = Godal.tables (sqlc w).
Proof.
  cbn [sqliteImpl]. unfold GroupDaoSqlite.Get, groupDao, newGroupDaoSqlite; simpl.
  destruct (Godal.GdaoFetchOne _ _ _ (sqlc w)) as [[gbo e0] s1] eqn:Hfetch.
  pose proof (GdaoFetchOne_tables_eq _ _ _ _ _ _ Hfetch) as Htabs.
  destruct e0 as [e0|]; simpl; [done|].
  destruct gbo as [gbo|]; [|done].
  destruct (GroupDaoSqlite.toBo (Some gbo)) as [bo|msg]; simpl; [|done].
  unfold liftDao; simpl. intros [= -> <- <-]. split; [|done].
  by eapply GdaoFetchOne_Some_table.
Qed.

Lemma sqlite_UserGet_inv w k u e w1 :
  sqliteImpl (UserDao_Get k) w = Ret ((Some u, e), w1) →
  is_Some (Godal.tables (sqlc w) !! sqliteTableUser) ∧
  Godal.tables (sqlc w1) = Godal.tables (sqlc w).
Proof.
  cbn [sqliteImpl]. unfold UserDaoSqlite.Get, userDao, newUserDaoSqlite; simpl.
  destruct (Godal.GdaoFetchOne _ _ _ (sqlc w)) as [[gbo e0] s1] eqn:Hfetch.
  pose proof (GdaoFetchOne_tables_eq _ _ _ _ _ _ Hfetch) as Htabs.
  destruct e0 as [e0|]; simpl; [done|].
  destruct gbo as [gbo|]; [|done].
  destruct (UserDaoSqlite.toBo (Some gbo)) as [bo|msg]; simpl; [|done].
  unfold liftDao; simpl. intros [= -> <- <-]. split; [|done].
  by eapply GdaoFetchOne_Some_table.
Qed.

Lemma createTableIfNotExists_present s tn key :
  is_Some (Godal.tables s !! tn) → createTableIfNotExists s tn key = s.
Proof. intros [t Ht]. unfold createTableIfNotExists. by rewrite Ht. Qed.

(** A first start: both tables are created, then both rows. *)
Lemma initDaos_on_new_database :
  declarations_sound → ids_normalized →
  ∃ evs w,
    initDaos_sqlite emptyStore = (evs, Ret (tt, w)) ∧
    healthy (sqlc w) ∧
    Godal.tables (sqlc w) !! sqliteTableGroup
    = Some {| Godal.pk := colGroupId;
              Godal.rows := [groupRow SystemGroupId "System User Group"] |} ∧
    Godal.tables (sqlc w) !! sqliteTableUser
    = Some {| Godal.pk := colUserUsername;
              Godal.rows := [userRow AdminUserUsernname
                               (encryptPassword AdminUserUsernname "s3cr3t")
                               AdminUserName SystemGroupId] |}.
Proof.
  intros Hdecl Hids.
  pose proof Hdecl as (Hg & Hu & Htn).
  unfold initDaos_sqlite.
  set (w0 := withSqlc emptyStore _).
  assert (sqlc w0
          = {| Godal.tables :=
                 <[sqliteTableUser := {| Godal.pk := colUserUsername; Godal.rows := [] |}]>
                   (<[sqliteTableGroup := {| Godal.pk := colGroupId; Godal.rows := [] |}]> ∅);
               Godal.faults := [] |}) as Hw0.
  { unfold w0, sqliteInitTableGroup, sqliteInitTableUser, createTableIfNotExists; simpl.
    rewrite lookup_empty; simpl. by rewrite lookup_insert_ne, lookup_empty by done. }
  assert (healthy (sqlc w0)) as Hh0 by (by rewrite Hw0).
  assert (Godal.tables (sqlc w0) !! sqliteTableGroup
          = Some {| Godal.pk := colGroupId; Godal.rows := [] |}) as HtG0.
  { rewrite Hw0; simpl. rewrite lookup_insert_ne by done. by rewrite lookup_insert_eq. }
  assert (Godal.tables (sqlc w0) !! sqliteTableUser
          = Some {| Godal.pk := colUserUsername; Godal.rows := [] |}) as HtU0.
  { rewrite Hw0; simpl. by rewrite lookup_insert_eq. }
  destruct (initDaos_creates_both w0 _ _ Hdecl Hids Hh0 HtG0 eq_refl HtU0 eq_refl)
    as (evs & w & Hrun & _ & Hh & HtG & HtU); [by constructor..|].
  exists evs, w. by split_and!.
Qed.

(** C2. Run against a new database, the reconciler returns normally, and
    afterwards [Get(SystemGroupId)] and [Get(AdminUserUsernname)] both
    find their entity, the admin user being in the system group. *)
Theorem bootstrap_establishes_seed_entities :
  declarations_sound → ids_normalized →
  ∃ evs w g u,
    initDaos_sqlite emptyStore = (evs, Ret (tt, w)) ∧
    sqliteImpl (GroupDao_Get SystemGroupId) w = Ret ((Some g, None), w) ∧
    sqliteImpl (UserDao_Get AdminUserUsernname) w = Ret ((Some u, None), w) ∧
    GroupId u = SystemGroupId.
Proof.
  intros Hdecl Hids.
  destruct (initDaos_on_new_database Hdecl Hids) as (evs & w & Hrun & Hh & HtG & HtU).
  destruct Hdecl as (Hg & Hu & _).
  exists evs, w, {| Id := SystemGroupId; Name := "System User Group" |},
    {| Username := AdminUserUsernname;
       Password := encryptPassword AdminUserUsernname "s3cr3t";
       UName := AdminUserName; GroupId := SystemGroupId |}.
  split_and!; [done | | | done].
  - by eapply (sqlite_GroupGet_last w _ []).
  - by eapply (sqlite_UserGet_last w _ []).
Qed.

(** *** The reconciler on any sound database *)

Lemma toBo_Some_not_nil (gbo : GenericBo) : GroupDaoSqlite.toBo (Some gbo) ≠ Ret None.
Proof.
  unfold GroupDaoSqlite.toBo.
  destruct (GboGetAttrUnsafe gbo fieldGroupId); simpl; [|done].
  destruct (GboGetAttrUnsafe gbo fieldGroupName); simpl; done.
Qed.

Lemma UserDao_toBo_Some_not_nil (gbo : GenericBo) : UserDaoSqlite.toBo (Some gbo) ≠ Ret None.
Proof.
  unfold UserDaoSqlite.toBo.
  repeat (match goal with
          | |- context [assertString ?o] => destruct o; simpl; [|done]
          end).
  done.
Qed.

(** On a sound connection [Get] finds nothing, finds a group, or panics on
    a row it cannot convert; the world stays as it is. *)
Lemma sqlite_GroupGet_cases w t id :
  healthy (sqlc w) → Godal.tables (sqlc w) !! sqliteTableGroup = Some t →
  (Forall (λ r, r !! colGroupId ≠ Some id) (Godal.rows t) ∧
   sqliteImpl (GroupDao_Get id) w = Ret ((None, None), w)) ∨
  (∃ g, sqliteImpl (GroupDao_Get id) w = Ret ((Some g, None), w)) ∨
  (∃ msg, sqliteImpl (GroupDao_Get id) w = Panic msg).
Proof.
  intros Hh Ht. cbn [sqliteImpl]. unfold groupDao.
  rewrite (Get_healthy _ _ _ _ Hh Ht).
  destruct (find _ _) as [row|] eqn:Hfind.
  - right. destruct (GroupDaoSqlite.toBo _) as [[g|]|msg] eqn:HtoBo; simpl.
    + left. exists g. unfold liftDao; simpl. by rewrite withSqlc_id.
    + by apply toBo_Some_not_nil in HtoBo.
    + right. eauto.
  - left. split.
    + apply find_none_Forall in Hfind.
      eapply Forall_impl; [exact Hfind|]. intros r Hr. by apply matches_singleton_false.
    + simpl. unfold liftDao; simpl. by rewrite withSqlc_id.
Qed.

Lemma sqlite_UserGet_cases w t k :
  healthy (sqlc w) → Godal.tables (sqlc w) !! sqliteTableUser = Some t →
  (Forall (λ r, r !! colUserUsername ≠ Some k) (Godal.rows t) ∧
   sqliteImpl (UserDao_Get k) w = Ret ((None, None), w)) ∨
  (∃ u, sqliteImpl (UserDao_Get k) w = Ret ((Some u, None), w)) ∨
  (∃ msg, sqliteImpl (UserDao_Get k) w = Panic msg).
Proof.
  intros Hh Ht. cbn [sqliteImpl]. unfold userDao.
  rewrite (UserDao_Get_healthy _ _ _ _ Hh Ht).
  destruct (find _ _) as [row|] eqn:Hfind.
  - right. destruct (UserDaoSqlite.toBo _) as [[u|]|msg] eqn:HtoBo; simpl.
    + left. exists u. unfold liftDao; simpl. by rewrite withSqlc_id.
    + by apply UserDao_toBo_Some_not_nil in HtoBo.
    + right. eauto.
  - left. split.
    + apply find_none_Forall in Hfind.
      eapply Forall_impl; [exact Hfind|]. intros r Hr. by apply matches_singleton_false.
    + simpl. unfold liftDao; simpl. by rewrite withSqlc_id.
Qed.

(** What [Get] returns depends on the table it reads only. *)
Lemma sqlite_GroupGet_frame w w' t id r :
  healthy (sqlc w) → healthy (sqlc w') →
  Godal.tables (sqlc w) !! sqliteTableGroup = Some t →
  Godal.tables (sqlc w') !! sqliteTableGroup = Some t →
  sqliteImpl (GroupDao_Get id) w = Ret (r, w) →
  sqliteImpl (GroupDao_Get id) w' = Ret (r, w').
Proof.
  intros Hh Hh' Ht Ht'. cbn [sqliteImpl]. unfold groupDao.
  rewrite (Get_healthy _ _ _ _ Hh Ht), (Get_healthy _ _ _ _ Hh' Ht').
  destruct (find _ _) as [row|].
  - destruct (GroupDaoSqlite.toBo _) as [bo|msg]; simpl; [|done].
    unfold liftDao; simpl. rewrite !withSqlc_id. by intros [= <-].
  - simpl. unfold liftDao; simpl. rewrite !withSqlc_id. by intros [= <-].
Qed.

(** On a sound connection [Create] appends its row or reports an error. *)
Lemma sqlite_GroupCreate_cases w t id name :
  group_fields_distinct →
  healthy (sqlc w) → Godal.tables (sqlc w) !! sqliteTableGroup = Some t →
  sqliteImpl (GroupDao_Create id name) w
  = Ret ((true, None),
         withSqlc w (Godal.setRows (sqlc w) sqliteTableGroup t
                       (Godal.rows t ++ [groupRow (normalize id) (Strings.TrimSpace name)]))) ∨
  ∃ e, sqliteImpl (GroupDao_Create id name) w = Ret ((false, Some e), w).
Proof.
  intros Hne%group_fields_neq Hh Ht. cbn [sqliteImpl].
  unfold GroupDaoSqlite.Create, groupDao, newGroupDaoSqlite; simpl.
  unfold GboSetAttr, NewGenericBo.
  unfold Godal.GdaoCreate, Godal.transport. rewrite Hh, Ht.
  rewrite (ToRow_group _ _ _ Hne).
  destruct (existsb _ _); unfold liftDao; simpl.
  - right. eexists. by rewrite withSqlc_id.
  - by left.
Qed.

Lemma sqlite_UserCreate_cases w t username pwd name gid :
  user_fields_distinct →
  healthy (sqlc w) → Godal.tables (sqlc w) !! sqliteTableUser = Some t →
  sqliteImpl (UserDao_Create username pwd name gid) w
  = Ret ((true, None),
         withSqlc w (Godal.setRows (sqlc w) sqliteTableUser t
                       (Godal.rows t
                        ++ [userRow (normalize username) pwd name (normalize gid)]))) ∨
  ∃ e, sqliteImpl (UserDao_Create username pwd name gid) w = Ret ((false, Some e), w).
Proof.
  intros Hf Hh Ht. cbn [sqliteImpl].
  unfold UserDaoSqlite.Create, userDao, newUserDaoSqlite; simpl.
  unfold GboSetAttr, NewGenericBo.
  unfold Godal.GdaoCreate, Godal.transport. rewrite Hh, Ht.
  rewrite (ToRow_user _ Hf).
  destruct (existsb _ _); unfold liftDao; simpl.
  - right. eexists. by rewrite withSqlc_id.
  - by left.
Qed.


(** After a run of the first half that returned, the system group is
    there; no other table was touched. *)
Lemma ensureSystemGroup_post w evs w' :
  group_fields_distinct → normalize SystemGroupId = SystemGroupId →
  healthy (sqlc w) → is_Some (Godal.tables (sqlc w) !! sqliteTableGroup) →
  run sqliteImpl ensureSystemGroup w = (evs, Ret (tt, w')) →
  healthy (sqlc w') ∧ groupPresent w' ∧
  (∀ tn, tn ≠ sqliteTableGroup →
         Godal.tables (sqlc w') !! tn = Godal.tables (sqlc w) !! tn).
Proof.
  intros Hg Hsg Hh [t Ht]. unfold ensureSystemGroup.
  cbn [run mbind Prog_bind pbind call].
  destruct (sqlite_GroupGet_cases w t SystemGroupId Hh Ht)
    as [[Habs ->]|[[g Hget]|[msg ->]]]; [| |done].
  - cbn [run mbind Prog_bind pbind call].
    set (l := log_Printf _).
    set (w1 := {| sqlc := sqlc w;
                  logged := logged w ++ ["System group [" +:+ SystemGroupId
                                         +:+ "] not found, creating one..."];
                  flashes := flashes w; entropy := entropy w |}).
    change (sqliteImpl l w) with (@Ret (unit * World) (tt, w1)).
    cbn [run mbind Prog_bind pbind call].
    destruct (sqlite_GroupCreate_cases w1 t SystemGroupId "System User Group" Hg Hh Ht)
      as [-> | [e ->]]; cbn [run mbind Prog_bind pbind call negb]; [|done].
    intros [= <- <-]. split_and!.
    + exact Hh.
    + eexists. eapply (sqlite_GroupGet_last _ _ (Godal.rows t)); try done.
      * simpl. apply lookup_insert_eq.
      * simpl. by rewrite Hsg.
    + intros tn Hne. simpl. by rewrite lookup_insert_ne.
  - rewrite Hget. cbn [run mbind Prog_bind pbind call].
    intros [= <- <-]. split_and!; [done | by exists g | done].
Qed.

Lemma ensureAdminUser_post w evs w' :
  user_fields_distinct → normalize AdminUserUsernname = AdminUserUsernname →
  healthy (sqlc w) → is_Some (Godal.tables (sqlc w) !! sqliteTableUser) →
  run sqliteImpl ensureAdminUser w = (evs, Ret (tt, w')) →
  healthy (sqlc w') ∧ userPresent w' ∧
  (∀ tn, tn ≠ sqliteTableUser →
         Godal.tables (sqlc w') !! tn = Godal.tables (sqlc w) !! tn).
Proof.
  intros Hu Hau Hh [t Ht]. unfold ensureAdminUser.
  cbn [run mbind Prog_bind pbind call].
  destruct (sqlite_UserGet_cases w t AdminUserUsernname Hh Ht)
    as [[Habs ->]|[[u Hget]|[msg ->]]]; [| |done].
  - cbn [run mbind Prog_bind pbind call].
    set (l := log_Printf _).
    set (w1 := {| sqlc := sqlc w;
                  logged := logged w ++ ["Admin user [" +:+ AdminUserUsernname
                                         +:+ "] not found, creating one with password ["
                                         +:+ "s3cr3t" +:+ "]..."];
                  flashes := flashes w; entropy := entropy w |}).
    change (sqliteImpl l w) with (@Ret (unit * World) (tt, w1)).
    cbn [run mbind Prog_bind pbind call].
    destruct (sqlite_UserCreate_cases w1 t AdminUserUsernname
                (encryptPassword AdminUserUsernname "s3cr3t") AdminUserName
                SystemGroupId Hu Hh Ht)
      as [-> | [e ->]]; cbn [run mbind Prog_bind pbind call negb]; [|done].
    intros [= <- <-]. split_and!.
    + exact Hh.
    + eexists. eapply (sqlite_UserGet_last _ _ (Godal.rows t)); try done.
      * simpl. apply lookup_insert_eq.
      * simpl. by rewrite Hau.
    + intros tn Hne. simpl. by rewrite lookup_insert_ne.
  - rewrite Hget. cbn [run mbind Prog_bind pbind call].
    intros [= <- <-]. split_and!; [done | by exists u | done].
Qed.

Lemma groupPresent_frame w w' :
  healthy (sqlc w) → healthy (sqlc w') →
  Godal.tables (sqlc w') !! sqliteTableGroup = Godal.tables (sqlc w) !! sqliteTableGroup →
  groupPresent w → groupPresent w'.
Proof.
  intros Hh Hh' Htab [g Hget].
  destruct (sqlite_GroupGet_inv _ _ _ _ _ Hget) as [[t Ht] _].
  exists g. apply (sqlite_GroupGet_frame w w' t _ _ Hh Hh' Ht); [by rewrite Htab | done].
Qed.

(** Whatever sound database the reconciler starts on, when it returns
    both entities are there. *)
Lemma initDaos_sqlite_post w evs w' :
  declarations_sound → ids_normalized → healthy (sqlc w) →
  initDaos_sqlite w = (evs, Ret (tt, w')) →
  healthy (sqlc w') ∧ groupPresent w' ∧ userPresent w'.
Proof.
  intros (Hg & Hu & Htn) (Hsg & Hau) Hh. unfold initDaos_sqlite.
  set (w0 := withSqlc w _).
  assert (healthy (sqlc w0)) as Hh0.
  { unfold w0, sqliteInitTableGroup, sqliteInitTableUser, createTableIfNotExists; simpl.
    repeat case_match; done. }
  assert (is_Some (Godal.tables (sqlc w0) !! sqliteTableGroup)) as HtG.
  { unfold w0, sqliteInitTableGroup, sqliteInitTableUser, createTableIfNotExists; simpl.
    repeat case_match; simpl; simplify_map_eq; eauto. }
  assert (is_Some (Godal.tables (sqlc w0) !! sqliteTableUser)) as HtU.
  { unfold w0, sqliteInitTableGroup, sqliteInitTableUser, createTableIfNotExists; simpl.
    repeat case_match; simpl; simplify_map_eq; eauto. }
  clearbody w0.
  rewrite initDaos_halves. change (ensureSystemGroup ≫= _)
    with (pbind ensureSystemGroup (λ _, ensureAdminUser)).
  rewrite run_pbind.
  destruct (run sqliteImpl ensureSystemGroup w0) as [evs1 [[[] w1]|msg]] eqn:Hrun1; [|done].
  destruct (ensureSystemGroup_post _ _ _ Hg Hsg Hh0 HtG Hrun1) as (Hh1 & HG1 & Hfr1).
  destruct (run sqliteImpl ensureAdminUser w1) as [evs2 [[[] w2]|msg]] eqn:Hrun2; [|done].
  assert (is_Some (Godal.tables (sqlc w1) !! sqliteTableUser)) as HtU1.
  { rewrite Hfr1; [done | congruence]. }
  destruct (ensureAdminUser_post _ _ _ Hu Hau Hh1 HtU1 Hrun2) as (Hh2 & HU2 & Hfr2).
  intros [= <- <-]. split_and!; [done | | done].
  eapply groupPresent_frame; [exact Hh1 | exact Hh2 | | exact HG1].
  by apply Hfr2.
Qed.


(** C3. On a database that has both entities the reconciler fetches the
    two, makes no other call, leaves every table and the number of rows as
    they were and returns normally; and whatever sound database a first run
    started on, a second run right after it is such a run and leaves the
    world as the first run left it. *)
Theorem bootstrap_is_idempotent :
  (∀ w g u w1 w2,
     sqliteImpl (GroupDao_Get SystemGroupId) w = Ret ((Some g, None), w1) →
     sqliteImpl (UserDao_Get AdminUserUsernname) w1 = Ret ((Some u, None), w2) →
     initDaos_sqlite w
     = ([Answered (GroupDao_Get SystemGroupId) (Some g, None);
         Answered (UserDao_Get AdminUserUsernname) (Some u, None)],
        Ret (tt, w2)) ∧
     Godal.tables (sqlc w2) = Godal.tables (sqlc w) ∧
     rowCount (sqlc w2) = rowCount (sqlc w)) ∧
  (declarations_sound → ids_normalized →
   ∀ w evs1 w1,
     healthy (sqlc w) →
     initDaos_sqlite w = (evs1, Ret (tt, w1)) →
     ∃ g u,
       initDaos_sqlite w1
       = ([Answered (GroupDao_Get SystemGroupId) (Some g, None);
           Answered (UserDao_Get AdminUserUsernname) (Some u, None)],
          Ret (tt, w1))).
Proof.
  assert (∀ w g u w1 w2,
     sqliteImpl (GroupDao_Get SystemGroupId) w = Ret ((Some g, None), w1) →
     sqliteImpl (UserDao_Get AdminUserUsernname) w1 = Ret ((Some u, None), w2) →
     initDaos_sqlite w
     = ([Answered (GroupDao_Get SystemGroupId) (Some g, None);
         Answered (UserDao_Get AdminUserUsernname) (Some u, None)],
        Ret (tt, w2)) ∧
     Godal.tables (sqlc w2) = Godal.tables (sqlc w) ∧
     rowCount (sqlc w2) = rowCount (sqlc w)) as Hnoop.
  { intros w g u w1 w2 HG HU.
    destruct (sqlite_GroupGet_inv _ _ _ _ _ HG) as [HtG Htabs1].
    destruct (sqlite_UserGet_inv _ _ _ _ _ HU) as [HtU Htabs2].
    rewrite Htabs1 in HtU.
    split; [|split; [congruence | unfold rowCount, allRows; congruence]].
    unfold initDaos_sqlite, sqliteInitTableGroup, sqliteInitTableUser.
    rewrite (createTableIfNotExists_present (sqlc w)) by done.
    rewrite createTableIfNotExists_present by done.
    rewrite withSqlc_id. by eapply initDaos_both_present. }
  split; [exact Hnoop|].
  intros Hdecl Hids w evs1 w1 Hh Hrun.
  destruct (initDaos_sqlite_post _ _ _ Hdecl Hids Hh Hrun) as (_ & [g HG] & [u HU]).
  exists g, u. by destruct (Hnoop _ _ _ _ _ HG HU) as [Hrun2 _].
Qed.

End SqliteWorld.

(** ** The theorems at work on the sample declarations *)

Lemma sample_group_fields_distinct : @group_fields_distinct sample.
Proof. unfold group_fields_distinct. apply (bool_decide_unpack _). vm_compute. exact I. Defined.

Lemma sample_user_fields_distinct : @user_fields_distinct sample.
Proof. unfold user_fields_distinct. apply (bool_decide_unpack _). vm_compute. exact I. Defined.

Lemma sample_declarations_sound : @declarations_sound sample.
Proof.
  split_and!;
    [exact sample_group_fields_distinct | exact sample_user_fields_distinct | done].
Defined.

Lemma sample_ids_normalized : @ids_normalized sample.
Proof. split; reflexivity. Defined.

Lemma tables_mutually_consistent_witness :
  @group_fields_distinct sample ∧ @user_fields_distinct sample ∧
  consistent (@mapFieldToColNameGroup sample) (@mapColNameToFieldGroup sample) colsGroup ∧
  consistent (@mapFieldToColNameUser sample) (@mapColNameToFieldUser sample) colsUser.
Proof.
  split; [exact sample_group_fields_distinct|].
  split; [exact sample_user_fields_distinct|].
  exact (@tables_mutually_consistent sample
           sample_group_fields_distinct sample_user_fields_distinct).
Defined.

Lemma group_bag_roundtrip_witness :
  @group_fields_distinct sample ∧
  @GroupDaoSqlite.toBo sample
    (@GroupDaoSqlite.toGbo sample (Some {| Id := "staff"; Name := "Staff Members" |}))
  = Ret (Some {| Id := "staff"; Name := "Staff Members" |}) ∧
  ∃ g gbo',
    @GroupDaoSqlite.toBo sample (Some {[ "id" := "staff"; "name" := "Staff"; "x" := "y" ]})
    = Ret (Some g) ∧
    @GroupDaoSqlite.toGbo sample (Some g) = Some gbo' ∧
    gbo' !! "id" = Some "staff" ∧ gbo' !! "name" = Some "Staff".
Proof.
  split; [exact sample_group_fields_distinct|].
  destruct (@group_bag_roundtrip sample sample_group_fields_distinct) as [H1 H2].
  split; [apply H1|].
  destruct (H2 {[ "id" := "staff"; "name" := "Staff"; "x" := "y" ]} "staff" "Staff")
    as (g & gbo' & Hg & Hgbo & Hi & Hn & _); [reflexivity | reflexivity |].
  exists g, gbo'. auto.
Defined.





Lemma initDaos_create_error_is_fatal_witness :
  (let r := run (@sqliteImpl sample) (@initDaos sample)
              (sampleWorldWith [None; Some "disk I/O error"]) in
   Exists (λ ev, createErrored ev = true) r.1 ∧ ∃ msg, r.2 = Panic msg) ∧
  (run refusingImpl (@initDaos sample) tt).2
  = (run refusingImpl (@ensureAdminUser sample) tt).2.
Proof.
  cbv zeta.
  assert (Exists (λ ev, createErrored ev = true)
            (run (@sqliteImpl sample) (@initDaos sample)
               (sampleWorldWith [None; Some "disk I/O error"])).1) as Hex.
  { vm_compute. do 2 apply Exists_cons_tl. apply Exists_cons_hd. reflexivity. }
  split; [split; [exact Hex|]|].
  - exact (proj1 (@initDaos_create_error_is_fatal sample _ (@sqliteImpl sample)
                    (sampleWorldWith [None; Some "disk I/O error"])) Hex).
  - exact (proj2 (proj2 (proj2 (@initDaos_create_error_is_fatal sample _ refusingImpl tt))
                    tt tt tt tt eq_refl eq_refl eq_refl eq_refl)).
Defined.

Lemma bootstrap_establishes_seed_entities_witness :
  @declarations_sound sample ∧ @ids_normalized sample ∧
  ∃ evs w g u,
    @initDaos_sqlite sample emptyStore = (evs, Ret (tt, w)) ∧
    @sqliteImpl sample (GroupDao_Get "administrator") w = Ret ((Some g, None), w) ∧
    @sqliteImpl sample (UserDao_Get "admin") w = Ret ((Some u, None), w) ∧
    GroupId u = "administrator".
Proof.
  split; [exact sample_declarations_sound|].
  split; [exact sample_ids_normalized|].
  exact (@bootstrap_establishes_seed_entities sample
           sample_declarations_sound sample_ids_normalized).
Defined.

Lemma bootstrap_is_idempotent_witness :
  (@initDaos_sqlite sample bootstrapped).2 = Ret (tt, bootstrapped) ∧
  rowCount (sqlc bootstrapped) = 2 ∧
  @declarations_sound sample ∧ @ids_normalized sample ∧ healthy (sqlc emptyStore) ∧
  (@initDaos_sqlite sample emptyStore).2 = Ret (tt, bootstrapped) ∧
  ∃ g u,
    @initDaos_sqlite sample bootstrapped
    = ([Answered (GroupDao_Get "administrator") (Some g, None);
        Answered (UserDao_Get "admin") (Some u, None)],
       Ret (tt, bootstrapped)).
Proof.
  destruct (@bootstrap_is_idempotent sample) as [Hnoop Htwice].
  assert (@sqliteImpl sample (GroupDao_Get "administrator") bootstrapped
          = Ret ((Some {| Id := "administrator"; Name := "System User Group" |}, None),
                 bootstrapped)) as HG by (vm_compute; reflexivity).
  assert (@sqliteImpl sample (UserDao_Get "admin") bootstrapped
          = Ret ((Some sampleAdmin, None), bootstrapped)) as HU by (vm_compute; reflexivity).
  destruct (Hnoop bootstrapped _ _ _ _ HG HU) as (Hrun & _ & _).
  split; [by rewrite Hrun|].
  split; [vm_compute; reflexivity|].
  split; [exact sample_declarations_sound|].
  split; [exact sample_ids_normalized|].
  split; [reflexivity|].
  assert (@initDaos_sqlite sample emptyStore
          = ((@initDaos_sqlite sample emptyStore).1, Ret (tt, bootstrapped))) as Hfirst
    by (vm_compute; reflexivity).
  split; [by rewrite Hfirst|].
  exact (Htwice sample_declarations_sound sample_ids_normalized
           emptyStore _ bootstrapped eq_refl Hfirst).
Defined.

Lemma system_group_never_deleted_witness :
  (run (@sqliteImpl sample) (@checkCpDeleteGroup sample (sampleRequest "staff" "")) withStaff).2
  = Ret ((Some {| Id := "staff"; Name := "Staff" |}, None), withStaff) ∧
  "staff" ≠ "administrator" ∧
  run (@sqliteImpl sample) (@checkCpDeleteGroup sample (sampleRequest "administrator" ""))
    bootstrapped
  = ([Answered (GroupDao_Get "administrator")
        (Some {| Id := "administrator"; Name := "System User Group" |}, None)],
     Ret ((None, Some "error_delete_system_group(administrator)"), bootstrapped)).
Proof.
  assert ((run (@sqliteImpl sample)
             (@checkCpDeleteGroup sample (sampleRequest "staff" "")) withStaff).2
          = Ret ((Some {| Id := "staff"; Name := "Staff" |}, None), withStaff)) as Hstaff
    by (vm_compute; reflexivity).
  destruct (@system_group_never_deleted sample _ (@sqliteImpl sample)
              (sampleRequest "staff" "") withStaff) as (H1 & _).
  destruct (H1 _ _ Hstaff) as (g & [= <-] & Hne).
  split; [exact Hstaff|]. split; [exact Hne|].
  destruct (@system_group_never_deleted sample _ (@sqliteImpl sample)
              (sampleRequest "administrator" "") bootstrapped) as (_ & H2 & _).
  apply (H2 sampleAdmin {| Id := "administrator"; Name := "System User Group" |} bootstrapped).
  - reflexivity.
  - reflexivity.
  - vm_compute. reflexivity.
  - reflexivity.
Defined.

Lemma admin_user_is_restricted_witness :
  run (@sqliteImpl sample) (@actionCpChangePasswordSubmit sample (sampleRequest "" "admin"))
    bootstrapped
  = ([], Ret (Render StatusOK "myapp:layout:cp_profile"
                [("active", DString "profile");
                 ("error", DString "Cannot change system admin account's password")],
              bootstrapped)) ∧
  Forall (λ ev, isWrite (evCall ev) = false)
    (run (@sqliteImpl sample) (@actionCpDeleteUserSubmit sample (sampleRequest "" "admin"))
       bootstrapped).1 ∧
  getIsKeyed (@sqliteImpl sample) ∧
  Forall (λ ev, @deletesAdminUser sample (evCall ev) = false)
    (run (@sqliteImpl sample) (@actionCpDeleteUserSubmit sample (sampleRequest "" "admin"))
       bootstrapped).1.
Proof.
  destruct (@admin_user_is_restricted sample _ (@sqliteImpl sample)
              (sampleRequest "" "admin") bootstrapped) as (H1 & _ & H3 & H4).
  pose proof (@sqliteImpl_getIsKeyed sample sample_user_fields_distinct) as Hkeyed.
  split; [exact (H1 sampleAdmin eq_refl eq_refl)|].
  split; [exact (proj1 (proj2 (H3 eq_refl)))|].
  split; [exact Hkeyed|].
  exact (proj1 (H4 Hkeyed)).
Defined.
(** * Properties of the rest of the package *)

(** ** More on the group DAO *)
Section GroupDaoMore.
Context `{K : Constants}.

(** X1. [toBo] returns nil for a nil bag only; for a bag it panics exactly
    when the id or the name attribute is missing, and otherwise returns
    the Group made of the two attribute values. *)
Theorem toBo_panics_iff_attribute_missing (gbo : GenericBo) :
  GroupDaoSqlite.toBo None = Ret None ∧
  GroupDaoSqlite.toBo (Some gbo) ≠ Ret None ∧
  ((∃ msg, GroupDaoSqlite.toBo (Some gbo) = Panic msg)
   ↔ gbo !! fieldGroupId = None ∨ gbo !! fieldGroupName = None) ∧
  (∀ g, GroupDaoSqlite.toBo (Some gbo) = Ret (Some g)
        ↔ gbo !! fieldGroupId = Some (Id g) ∧ gbo !! fieldGroupName = Some (Name g)).
Proof.
  split; [done|]. split; [apply toBo_Some_not_nil|].
  unfold GroupDaoSqlite.toBo, GboGetAttrUnsafe.
  destruct (gbo !! fieldGroupId) as [i|], (gbo !! fieldGroupName) as [n|]; simpl.
  all: split; [split; [intros [msg ?]| intros [?|?]]; try done; eauto
              | intros [i' n']; simpl; split; [intros [=]|intros [[=] [=]]]; by subst].
Qed.

End GroupDaoMore.
Section GroupDaoMore2.
Context `{K : Constants}.


Variable tn : string.
Let dao : GroupDaoSqlite.t Godal.SqlConnect := newGroupDaoSqlite tn.


(** X4. Whenever [Get(id)] returns a group, whatever the state of the
    connection and of the table, that group's id is [id] as it was asked
    for. *)
Theorem Get_returns_the_asked_id id s g err s' :
  group_fields_distinct →
  GroupDaoSqlite.Get dao id s = Ret ((Some g, err), s') → Id g = id.
Proof.
  intros Hne%group_fields_neq. unfold GroupDaoSqlite.Get, dao, newGroupDaoSqlite; simpl.
  destruct (Godal.GdaoFetchOne _ _ _ s) as [[gbo e] s1] eqn:Hfetch.
  destruct e as [e|]; [done|].
  destruct gbo as [gbo|]; simpl; [|done].
  apply GdaoFetchOne_found in Hfetch as (row & Hrow & ->).
  unfold GroupDaoSqlite.toBo, GboGetAttrUnsafe.
  destruct (Godal.ToBo _ _ _ !! fieldGroupId) as [x|] eqn:Hx; simpl; [|done].
  apply ToBo_project_source in Hx as (c & Hc & Hrc & Htr).
  cbn [Godal.ColumnsListMap Godal.ColNameToGboFieldTranslator] in Hc, Htr.
  rewrite lookup_singleton_eq in Hc. rewrite lookup_singleton_eq in Htr.
  simpl in Hc.
  assert (x = id) as ->.
  { unfold colsGroup in Hc. rewrite !elem_of_cons, elem_of_nil in Hc.
    unfold Godal.translate, mapColNameToFieldGroup in Htr.
    destruct Hc as [->|[->|[]]]; simplify_map_eq; congruence. }
  destruct (assertString _); simpl; [|done].
  by intros [= <- _ _].
Qed.

End GroupDaoMore2.
Section GroupDaoMore3.
Context `{K : Constants}.
Variable tn : string.
Let dao : GroupDaoSqlite.t Godal.SqlConnect := newGroupDaoSqlite tn.







End GroupDaoMore3.
Section CreateSequences.
Context `{K : Constants}.
Variable tn : string.
Let dao : GroupDaoSqlite.t Godal.SqlConnect := newGroupDaoSqlite tn.





End CreateSequences.
(** ** Table set-up *)


(** ** More on the reconciler *)
Section ReconcilerMore.
Context `{K : Constants} {St : Type} (h : Impl St).

(** X8. Whatever the DAOs answer, the reconciler only fetches and creates
    the two well-known entities (the admin user with the transformed
    default password, in the system group) and logs; it creates an entity
    at most once and never after its fetch found one; and a fetch that
    returns an error is fatal. *)
Theorem initDaos_call_discipline (s : St) :
  let r := run h initDaos s in
  Forall (λ ev, reconcilerCall (evCall ev) = true) r.1 ∧
  (length (filter (λ ev, isGroupCreate (evCall ev) = true) r.1) ≤ 1)%nat ∧
  (length (filter (λ ev, isUserCreate (evCall ev) = true) r.1) ≤ 1)%nat ∧
  (Exists (λ ev, groupFound ev = true) r.1 →
   Forall (λ ev, isGroupCreate (evCall ev) = false) r.1) ∧
  (Exists (λ ev, userFound ev = true) r.1 →
   Forall (λ ev, isUserCreate (evCall ev) = false) r.1) ∧
  (Exists (λ ev, fetchErrored ev = true) r.1 → ∃ msg, r.2 = Panic msg).
Proof.
  cbv zeta. split_and!.
  - unfold initDaos; simpl. repeat run_step.
    all: repeat constructor; simpl; by rewrite ?bool_decide_eq_true_2 by done.
  - unfold initDaos; simpl. repeat run_step; simpl; lia.
  - unfold initDaos; simpl. repeat run_step; simpl; lia.
  - unfold initDaos; simpl. repeat run_step.
    all: intros Hex; try (repeat constructor; fail).
    all: no_such_event Hex.
  - unfold initDaos; simpl. repeat run_step.
    all: intros Hex; try (repeat constructor; fail).
    all: no_such_event Hex.
  - unfold initDaos; simpl. repeat run_step.
    all: intros Hex; try (eexists; reflexivity).
    all: no_such_event Hex.
Qed.

End ReconcilerMore.
Section Restart.
Context `{K : Constants}.

Lemma sqlite_GroupCreate_existing w t id name :
  group_fields_distinct →
  healthy (sqlc w) → Godal.tables (sqlc w) !! sqliteTableGroup = Some t →
  Godal.pk t = colGroupId →
  Exists (λ r, r !! colGroupId = Some (normalize id)) (Godal.rows t) →
  sqliteImpl (GroupDao_Create id name) w
  = Ret ((false, Some Godal.GdaoErrorDuplicatedEntry), w).
Proof.
  intros Hne%group_fields_neq Hh Ht Hpk Hex. cbn [sqliteImpl].
  unfold GroupDaoSqlite.Create, groupDao, newGroupDaoSqlite; simpl.
  unfold GboSetAttr, NewGenericBo.
  unfold Godal.GdaoCreate, Godal.transport. rewrite Hh, Ht.
  rewrite (ToRow_group _ _ _ Hne), Hpk.
  replace (existsb _ _) with true.
  - unfold liftDao; simpl. by rewrite withSqlc_id.
  - symmetry. apply existsb_exists. apply Exists_exists in Hex as (r & Hin & Hr).
    exists r. split; [by apply list_elem_of_In|].
    unfold Godal.sameKey. rewrite groupRow_key. by apply bool_decide_eq_true.
Qed.

(** X9. The system group's id has to be declared in the form [Create]
    stores: were it not (an upper-case letter, a space at either end), a
    first start on an empty database still succeeds, but the group is
    stored under the normalised id, a fetch by the declared id finds
    nothing, and the next start dies on the duplicated-entry error of the
    second creation. *)
Theorem restart_fails_on_unnormalized_system_id :
  declarations_sound →
  normalize AdminUserUsernname = AdminUserUsernname →
  normalize SystemGroupId ≠ SystemGroupId →
  ∃ evs w1,
    initDaos_sqlite emptyStore = (evs, Ret (tt, w1)) ∧
    Forall (λ ev, createUnsuccessful ev = false) evs ∧
    sqliteImpl (GroupDao_Get SystemGroupId) w1 = Ret ((None, None), w1) ∧
    sqliteImpl (GroupDao_Get (normalize SystemGroupId)) w1
    = Ret ((Some {| Id := normalize SystemGroupId; Name := "System User Group" |}, None), w1) ∧
    (initDaos_sqlite w1).2
    = Panic ("error while creating group [" +:+ SystemGroupId +:+ "]: "
             +:+ Godal.GdaoErrorDuplicatedEntry).
Proof.
  intros (Hg & Hu & Htn) Hau Hsg.
  set (tG0 := {| Godal.pk := colGroupId; Godal.rows := [] |}).
  set (tU0 := {| Godal.pk := colUserUsername; Godal.rows := [] |}).
  set (s0 := {| Godal.tables := <[sqliteTableUser := tU0]> (<[sqliteTableGroup := tG0]> ∅);
                Godal.faults := [] |}).
  set (w0 := withSqlc emptyStore s0).
  assert (initDaos_sqlite emptyStore = run sqliteImpl initDaos w0) as Hstart.
  { unfold initDaos_sqlite, sqliteInitTableUser, sqliteInitTableGroup,
      createTableIfNotExists; simpl.
    rewrite lookup_empty; simpl. by rewrite lookup_insert_ne, lookup_empty by done. }
  assert (Godal.tables (sqlc w0) !! sqliteTableGroup = Some tG0) as HtG.
  { simpl. by rewrite lookup_insert_ne, lookup_insert_eq by done. }
  assert (Godal.tables (sqlc w0) !! sqliteTableUser = Some tU0) as HtU.
  { simpl. by rewrite lookup_insert_eq. }
  assert (Strings.TrimSpace "System User Group" = "System User Group") as Hname
    by reflexivity.
  set (w1 := {| sqlc := sqlc w0;
                logged := logged w0 ++ ["System group [" +:+ SystemGroupId
                                       +:+ "] not found, creating one..."];
                flashes := flashes w0; entropy := entropy w0 |}).
  set (w2 := withSqlc w1 (Godal.setRows (sqlc w1) sqliteTableGroup tG0
               [groupRow (normalize SystemGroupId) "System User Group"])).
  set (w3 := {| sqlc := sqlc w2;
                logged := logged w2 ++ ["Admin user [" +:+ AdminUserUsernname
                                        +:+ "] not found, creating one with password ["
                                        +:+ "s3cr3t" +:+ "]..."];
                flashes := flashes w2; entropy := entropy w2 |}).
  set (w4 := withSqlc w3 (Godal.setRows (sqlc w3) sqliteTableUser tU0
               [userRow AdminUserUsernname
                  (encryptPassword AdminUserUsernname "s3cr3t")
                  AdminUserName (normalize SystemGroupId)])).
  assert (sqliteImpl (GroupDao_Create SystemGroupId "System User Group") w1
          = Ret ((true, None), w2)) as HcreateG.
  { rewrite (sqlite_GroupCreate_fresh w1 tG0) by (done || constructor).
    unfold w2. by rewrite Hname. }
  assert (Godal.tables (sqlc w2) !! sqliteTableUser = Some tU0) as HtU2.
  { unfold w2, w1; simpl. rewrite lookup_insert_ne by done. by rewrite lookup_insert_eq. }
  assert (sqliteImpl (UserDao_Get AdminUserUsernname) w2 = Ret ((None, None), w2))
    as HgetU by (apply (sqlite_UserGet_absent w2 tU0); (done || constructor)).
  assert (sqliteImpl (UserDao_Create AdminUserUsernname
                        (encryptPassword AdminUserUsernname "s3cr3t")
                        AdminUserName SystemGroupId) w3
          = Ret ((true, None), w4)) as HcreateU.
  { rewrite (sqlite_UserCreate_fresh w3 tU0) by (done || constructor).
    unfold w4. by rewrite Hau. }
  set (tG4 := {| Godal.pk := colGroupId;
                 Godal.rows := [groupRow (normalize SystemGroupId) "System User Group"] |}).
  assert (Godal.tables (sqlc w4) !! sqliteTableGroup = Some tG4) as HtG4.
  { unfold w4, w3, w2, w1; simpl. rewrite lookup_insert_ne by done.
    by rewrite lookup_insert_eq. }
  assert (is_Some (Godal.tables (sqlc w4) !! sqliteTableUser)) as HtU4.
  { unfold w4, w3, w2, w1; simpl. rewrite lookup_insert_eq. by eexists. }
  assert (sqliteImpl (GroupDao_Get SystemGroupId) w4 = Ret ((None, None), w4)) as Hget4.
  { apply (sqlite_GroupGet_absent w4 tG4); [done|done|].
    repeat constructor. rewrite groupRow_key. congruence. }
  exists [Answered (GroupDao_Get SystemGroupId) (None, None);
          Answered (log_Printf ("System group [" +:+ SystemGroupId
                                +:+ "] not found, creating one...")) tt;
          Answered (GroupDao_Create SystemGroupId "System User Group") (true, None);
          Answered (UserDao_Get AdminUserUsernname) (None, None);
          Answered (log_Printf ("Admin user [" +:+ AdminUserUsernname
                                +:+ "] not found, creating one with password ["
                                +:+ "s3cr3t" +:+ "]...")) tt;
          Answered (UserDao_Create AdminUserUsernname
                      (encryptPassword AdminUserUsernname "s3cr3t")
                      AdminUserName SystemGroupId) (true, None)], w4.
  split_and!.
  - rewrite Hstart. unfold initDaos. cbn [run mbind Prog_bind pbind call].
    rewrite (sqlite_GroupGet_absent w0 tG0) by (done || constructor).
    cbn [run mbind Prog_bind pbind call].
    change (sqliteImpl (log_Printf _) w0) with (@Ret (unit * World) (tt, w1)).
    cbn [run mbind Prog_bind pbind call].
    rewrite HcreateG. cbn [run mbind Prog_bind pbind call negb].
    rewrite HgetU. cbn [run mbind Prog_bind pbind call].
    change (sqliteImpl (log_Printf _) w2) with (@Ret (unit * World) (tt, w3)).
    cbn [run mbind Prog_bind pbind call].
    rewrite HcreateU. cbn [run mbind Prog_bind pbind call negb]. done.
  - repeat constructor.
  - exact Hget4.
  - apply (sqlite_GroupGet_last w4 tG4 []); done.
  - unfold initDaos_sqlite.
    unfold sqliteInitTableUser, sqliteInitTableGroup.
    rewrite (createTableIfNotExists_present (sqlc w4) sqliteTableGroup) by (by eexists).
    rewrite (createTableIfNotExists_present (sqlc w4) sqliteTableUser) by done.
    rewrite withSqlc_id.
    unfold initDaos. cbn [run mbind Prog_bind pbind call].
    rewrite Hget4. cbn [run mbind Prog_bind pbind call].
    match goal with
    | |- context [sqliteImpl (log_Printf ?m) w4] =>
        set (w5 := {| sqlc := sqlc w4; logged := logged w4 ++ [m];
                      flashes := flashes w4; entropy := entropy w4 |});
        change (sqliteImpl (log_Printf m) w4) with (@Ret (unit * World) (tt, w5))
    end.
    cbn [run mbind Prog_bind pbind call].
    rewrite (sqlite_GroupCreate_existing w5 tG4); [done..|].
    constructor. by rewrite groupRow_key.
Qed.

End Restart.
(** ** Log-in and the create and edit flows, over any DAOs *)
Section HandlersMore.
Context `{K : Constants} {St : Type} (h : Impl St).

(** X10. The authentication middleware lets a request through to the
    wrapped handler only with a user that [userDao.Get] returned for the
    session's uid (a fetch error next to a user is logged and does not
    stop the request); every other request ends in the redirect to the
    log-in page, or in the panic of the fetch, after at most the fetch and
    one log line and without any write. *)
Theorem middleware_admits_only_fetched_users
    (next : User → Prog Page) (sessUid : option string) (s : St) :
  let r := run h (middlewareRequiredAuth next sessUid) s in
  (sessUid = None →
   r = ([], Ret (PRedirect StatusFound (Reverse actionNameCpLogin), s))) ∧
  ((∃ k u e s1 pre s2,
      sessUid = Some k ∧ h (UserDao_Get k) s = Ret ((Some u, e), s1) ∧
      Forall (λ ev, isWrite (evCall ev) = false) pre ∧
      r = ((pre ++ (run h (next u) s2).1)%list, (run h (next u) s2).2)) ∨
   ((length r.1 ≤ 2)%nat ∧
    Forall (λ ev, isWrite (evCall ev) = false) r.1 ∧
    ((∃ s', r.2 = Ret (PRedirect StatusFound (Reverse actionNameCpLogin), s')) ∨
     ∃ msg, r.2 = Panic msg))).
Proof.
  cbv zeta. split; [by intros ->|].
  destruct sessUid as [k|]; simpl.
  2: { right. split_and!; [lia|constructor|left; by eexists]. }
  destruct (h (UserDao_Get k) s) as [[[ou [e|]] s1]|msg] eqn:Hget; simpl.
  - destruct (h (log_Printf _) s1) as [[[] s2]|msg] eqn:Hlog; simpl.
    + destruct ou as [u|]; simpl.
      * left. exists k, u, (Some e), s1.
        eexists [Answered (UserDao_Get k) (Some u, Some e); Answered (log_Printf _) tt], s2.
        split_and!; [done|done|by repeat constructor|].
        by destruct (run h (next u) s2).
      * right. split_and!; [lia|by repeat constructor|left; by eexists].
    + right. split_and!; [lia|by repeat constructor|right; by eexists].
  - destruct ou as [u|]; simpl.
    + left. exists k, u, None, s1.
      eexists [Answered (UserDao_Get k) (Some u, None)], s1.
      split_and!; [done|done|by repeat constructor|].
      by destruct (run h (next u) s1).
    + right. split_and!; [lia|by repeat constructor|left; by eexists].
  - right. split_and!; [lia|by repeat constructor|right; by eexists].
Qed.

(** X11. Log-in opens a session only for a user that [userDao.Get]
    returned, without error, for the user name exactly as typed, and whose
    stored password is the transform of the password exactly as typed
    under that user's name; the session then holds that user's name.
    Every other request is answered by the log-in page with no session
    value set, and log-in never writes through a DAO. *)
Theorem login_requires_matching_password (c : Context) (s : St) :
  let r := run h (actionCpLoginSubmit c) s in
  Forall (λ ev, isWrite (evCall ev) = false) r.1 ∧
  (∀ page writes s', r.2 = Ret ((page, writes), s') →
     (writes = [] ∧ ∃ data, page = PRender StatusOK (namespace +:+ ":login") data) ∨
     (∃ formData u,
        FormParams c = (formData, None) ∧
        h (UserDao_Get (Values_Get formData "username")) s = Ret ((Some u, None), s') ∧
        encryptPassword (Username u) (Values_Get formData "password") = Password u ∧
        writes = [(sessionMyUid, Some (Username u))] ∧
        page = PRedirect StatusFound (Reverse actionNameCpDashboard))).
Proof.
  cbv zeta. unfold actionCpLoginSubmit.
  destruct (FormParams c) as [formData [e|]] eqn:Hform; simpl.
  { split; [constructor|]. intros ??? [= <- <- <-]. left. eauto. }
  destruct (h (UserDao_Get _) s) as [[[ou [e|]] s1]|msg] eqn:Hget; simpl.
  - split; [by repeat constructor|]. intros ??? [= <- <- <-]. left. eauto.
  - destruct ou as [u|]; simpl.
    + case_bool_decide as Hpwd; simpl.
      * split; [by repeat constructor|]. intros ??? [= <- <- <-]. left. eauto.
      * split; [by repeat constructor|]. intros ??? [= <- <- <-]. right.
        exists formData, u. by split_and!.
    + split; [by repeat constructor|]. intros ??? [= <- <- <-]. left. eauto.
  - split; [by repeat constructor|]. intros ??? [=].
Qed.

End HandlersMore.
Section FlowsMore.
Context `{K : Constants} {St : Type} (h : Impl St).






End FlowsMore.
(** ** The create flows over the SQLite DAOs *)
Section FlowsOnSqlite.
Context `{K : Constants}.





End FlowsOnSqlite.
(** ** Flash messages, from the handlers to the page *)
Section FlashMore.
Context `{K : Constants}.
Variables flashPrefixError flashPrefixInfo : string.

Lemma HasPrefix_app (p e : string) : HasPrefix (p +:+ e) p = true.
Proof.
  unfold HasPrefix. induction p as [|a p IH]; simpl; [by destruct e|].
  destruct (Ascii.ascii_dec a a); [exact IH|done].
Qed.

Lemma substring_all (e : string) : String.substring 0 (String.length e) e = e.
Proof. induction e as [|a e IH]; simpl; [done|]. by rewrite IH. Qed.

Lemma sliceFrom_app (p e : string) : sliceFrom (String.length p) (p +:+ e) = e.
Proof.
  unfold sliceFrom. induction p as [|a p IH]; simpl.
  - rewrite Nat.sub_0_r. apply substring_all.
  - exact IH.
Qed.

(** X18. A rejected request reaches the page as a warning with its error
    text intact: the message a handler flashes on rejection, the warning
    prefix followed by the error text, is filed by [Render] under
    "flashWarning" with exactly that text, whatever the other two prefixes
    are and whatever was flashed after it.  So after the create-group
    form is refused to a user outside the system group, over the SQLite
    DAOs with no message pending, the next page shows the "no permission"
    text as its warning. *)
Theorem rejection_is_rendered_as_warning (e : string) (rest : list string) :
  flashView flashPrefixError flashPrefixInfo ((flashPrefixWarning +:+ e) :: rest)
  = [("flashWarning", VString e)] ∧
  ∀ (c : Context) (w : World) (u : User),
    getCurrentUser c = (Some u, None) → GroupId u ≠ SystemGroupId →
    flashes w = [] →
    ∃ url w',
      run sqliteImpl (actionCpCreateGroup c) w
      = ([Answered (addFlashMsg (flashPrefixWarning +:+ i18nText "error_no_permission" [])) tt;
          Answered (RandomString 4) (hd "" (entropy w))],
         Ret (PRedirect StatusFound url, w')) ∧
      sqlc w' = sqlc w ∧
      flashView flashPrefixError flashPrefixInfo (flashes w')
      = [("flashWarning", VString (i18nText "error_no_permission" []))].
Proof.
  assert (∀ e rest,
    flashView flashPrefixError flashPrefixInfo ((flashPrefixWarning +:+ e) :: rest)
    = [("flashWarning", VString e)]) as Hview.
  { intros e' rest'. unfold flashView. by rewrite HasPrefix_app, sliceFrom_app. }
  split; [apply Hview|].
  intros c w u Hcu Hgid Hflash.
  unfold actionCpCreateGroup, checkCpCreateGroup. rewrite Hcu; simpl.
  rewrite bool_decide_eq_true_2 by (right; simpl; congruence).
  simpl. eexists _, _. split; [reflexivity|]. simpl. split; [done|].
  rewrite Hflash. apply Hview.
Qed.

End FlashMore.
Section ChangePassword.
Context `{K : Constants} {St : Type} (h : Impl St).


End ChangePassword.

(** ** The properties of the rest of the package at work on the sample declarations *)

Lemma toBo_panics_iff_attribute_missing_witness :
  ∃ msg, @GroupDaoSqlite.toBo sample (Some {[ "id" := "staff" ]}) = Panic msg.
Proof.
  apply (proj2 (proj1 (proj2 (proj2
           (@toBo_panics_iff_attribute_missing sample {[ "id" := "staff" ]}))))).
  right. vm_compute. reflexivity.
Defined.


Lemma Get_returns_the_asked_id_witness :
  Id {| Id := "administrator"; Name := "System User Group" |} = "administrator".
Proof.
  apply (@Get_returns_the_asked_id sample tableGroup "administrator" (sqlc bootstrapped)
           {| Id := "administrator"; Name := "System User Group" |} None (sqlc bootstrapped)).
  - exact sample_group_fields_distinct.
  - vm_compute. reflexivity.
Defined.




Lemma initDaos_call_discipline_witness :
  ∃ msg, (run (@sqliteImpl sample) (@initDaos sample)
            (sampleWorldWith [Some "disk I/O error"])).2 = Panic msg.
Proof.
  apply (proj2 (proj2 (proj2 (proj2 (proj2
           (@initDaos_call_discipline sample _ (@sqliteImpl sample)
              (sampleWorldWith [Some "disk I/O error"]))))))).
  vm_compute. apply Exists_cons_hd. reflexivity.
Defined.

Lemma sampleMixedCase_declarations_sound : @declarations_sound sampleMixedCase.
Proof.
  split_and!; [| |done].
  - unfold group_fields_distinct. apply (bool_decide_unpack _). vm_compute. exact I.
  - unfold user_fields_distinct. apply (bool_decide_unpack _). vm_compute. exact I.
Defined.

Lemma restart_fails_on_unnormalized_system_id_witness :
  ∃ evs w1,
    @initDaos_sqlite sampleMixedCase emptyStore = (evs, Ret (tt, w1)) ∧
    @sqliteImpl sampleMixedCase (GroupDao_Get "Administrator") w1 = Ret ((None, None), w1) ∧
    (@initDaos_sqlite sampleMixedCase w1).2
    = Panic ("error while creating group [Administrator]: "
             +:+ Godal.GdaoErrorDuplicatedEntry).
Proof.
  destruct (@restart_fails_on_unnormalized_system_id sampleMixedCase
              sampleMixedCase_declarations_sound)
    as (evs & w1 & H1 & _ & H2 & _ & H3).
  - reflexivity.
  - vm_compute. discriminate.
  - exists evs, w1. split_and!; [exact H1 | exact H2 | exact H3].
Defined.

Lemma middleware_admits_only_fetched_users_witness :
  run (@sqliteImpl sample)
    (@middlewareRequiredAuth sample (λ _, Done (PRender StatusOK "myapp:landing" [])) None)
    bootstrapped
  = ([], Ret (PRedirect StatusFound "/cp_login", bootstrapped)).
Proof.
  exact (proj1 (@middleware_admits_only_fetched_users sample _ (@sqliteImpl sample)
                  (λ _, Done (PRender StatusOK "myapp:landing" [])) None bootstrapped)
           eq_refl).
Defined.

Lemma login_requires_matching_password_witness :
  ([(sessionMyUid, Some "admin")] = [] ∧
   ∃ data, PRedirect StatusFound "/cp_dashboard" = PRender StatusOK "myapp:login" data) ∨
  ∃ formData u,
    FormParams (sampleSubmit None "" "" [("username", "admin"); ("password", "s3cr3t")])
    = (formData, None) ∧
    @sqliteImpl sample (UserDao_Get (Values_Get formData "username")) bootstrapped
    = Ret ((Some u, None), bootstrapped) ∧
    @encryptPassword sample (Username u) (Values_Get formData "password") = Password u ∧
    [(sessionMyUid, Some "admin")] = [(sessionMyUid, Some (Username u))] ∧
    PRedirect StatusFound "/cp_dashboard"
    = PRedirect StatusFound (@Reverse sample actionNameCpDashboard).
Proof.
  apply (proj2 (@login_requires_matching_password sample _ (@sqliteImpl sample)
                  (sampleSubmit None "" "" [("username", "admin"); ("password", "s3cr3t")])
                  bootstrapped)).
  vm_compute. reflexivity.
Defined.







Lemma rejection_is_rendered_as_warning_witness :
  ∃ url w',
    run (@sqliteImpl sample)
      (@actionCpCreateGroup sample (sampleSubmit (Some sampleStaff) "" "" [])) bootstrapped
    = ([Answered (addFlashMsg "_warning_:error_no_permission()") tt;
        Answered (RandomString 4) ""],
       Ret (PRedirect StatusFound url, w')) ∧
    sqlc w' = sqlc bootstrapped ∧
    @flashView sample "_error_:" "_info_:" (flashes w')
    = [("flashWarning", VString "error_no_permission()")].
Proof.
  apply (proj2 (@rejection_is_rendered_as_warning sample "_error_:" "_info_:" "" [])
           (sampleSubmit (Some sampleStaff) "" "" []) bootstrapped sampleStaff).
  - reflexivity.
  - vm_compute. discriminate.
  - vm_compute. reflexivity.
Defined.

